(** * Monocle query engine: a shallow embedding of [monocle/db/queries.py]

    The Python module builds Elasticsearch query bodies out of a parameter
    dictionary, sends them through a client object [es] and post-processes
    the JSON answers.  The embedding keeps the shapes the code manipulates:

    - Python values are the inductive [pyval]; dictionaries are association
      lists in insertion order, as CPython keeps them;
    - a call that may raise returns [res], and code that talks to the
      backend lives in the state-and-exception monad [M];
    - the client [es] (with the scan helper and the wall clock) is a record
      of transition functions over an abstract backend state.

    Strings are byte strings.  Documents follow the index mapping: the keys
    of a terms aggregation, authors and change identifiers are strings and
    bucket sizes are integers; where the code compares, sorts or adds such
    a value and the backend sent something else, the model raises
    [TypeError]. *)

From Stdlib Require Import ZArith List String Ascii Bool Lia.
From Stdlib Require Import Sorting.Sorted Sorting.Permutation.
From Stdlib Require Import Floats.SpecFloat.
From Stdlib Require Structures.OrderedTypeEx.
Import ListNotations.

Open Scope string_scope.
Open Scope list_scope.
Open Scope Z_scope.

#[local] Set Warnings "-register-all".

(** ** Python values *)

Inductive exn : Type :=
| TypeError
| KeyError (k : string)
| ValueError
| AttributeError
| ZeroDivisionError
| OverflowError
| StatisticsError
| TransportError.

Inductive res (A : Type) : Type :=
| Ok (a : A)
| Raise (e : exn).
Arguments Ok {A} a.
Arguments Raise {A} e.

Inductive pyval : Type :=
| VNone
| VBool (b : bool)
| VInt (z : Z)
| VFloat (f : spec_float)
| VStr (s : string)
| VList (l : list pyval)
| VTuple (l : list pyval)
| VDict (d : list (string * pyval)).

Definition dict := list (string * pyval).

(** Binary64 arithmetic, as CPython floats have it. *)
Definition prec : Z := 53.
Definition emax : Z := 1024.
Definition b64_of_Z (z : Z) : spec_float := binary_normalize prec emax z 0 false.

Module Dict.

Fixpoint lookup {V : Type} (d : list (string * V)) (k : string) : option V :=
  match d with
  | [] => None
  | (k', v) :: d' => if String.eqb k' k then Some v else lookup d' k
  end.

(** [d[k] = v]: an existing key keeps its position, a new one goes last. *)
Fixpoint set {V : Type} (d : list (string * V)) (k : string) (v : V)
  : list (string * V) :=
  match d with
  | [] => [(k, v)]
  | (k', v') :: d' =>
      if String.eqb k' k then (k', v) :: d' else (k', v') :: set d' k v
  end.

Fixpoint remove {V : Type} (d : list (string * V)) (k : string)
  : list (string * V) :=
  match d with
  | [] => []
  | (k', v') :: d' =>
      if String.eqb k' k then d' else (k', v') :: remove d' k
  end.

Definition mem {V : Type} (d : list (string * V)) (k : string) : bool :=
  match lookup d k with Some _ => true | None => false end.

End Dict.

(** [d.get(k)] and [d.get(k, default)]. *)
Definition get (d : dict) (k : string) : pyval :=
  match Dict.lookup d k with Some v => v | None => VNone end.

Definition get_default (d : dict) (k : string) (default : pyval) : pyval :=
  match Dict.lookup d k with Some v => v | None => default end.

(** [v[k]] for a string subscript. *)
Definition getitem (v : pyval) (k : string) : res pyval :=
  match v with
  | VDict d =>
      match Dict.lookup d k with
      | Some x => Ok x
      | None => Raise (KeyError k)
      end
  | _ => Raise TypeError
  end.

(** Truth value of a Python object in a condition. *)
Definition truthy (v : pyval) : bool :=
  match v with
  | VNone => false
  | VBool b => b
  | VInt z => negb (z =? 0)
  | VFloat (S754_zero _) => false
  | VFloat _ => true
  | VStr EmptyString => false
  | VStr _ => true
  | VList [] | VTuple [] => false
  | VList _ | VTuple _ => true
  | VDict [] => false
  | VDict _ => true
  end.

(** [list(s)] for a string: its one-character substrings. *)
Fixpoint chars (s : string) : list pyval :=
  match s with
  | EmptyString => []
  | String c s' => VStr (String c EmptyString) :: chars s'
  end.

(** Iteration over a value ([for x in v]). *)
Definition py_iter (v : pyval) : res (list pyval) :=
  match v with
  | VList l | VTuple l => Ok l
  | VStr s => Ok (chars s)
  | VDict d => Ok (map (fun kv => VStr (fst kv)) d)
  | _ => Raise TypeError
  end.

(** ** Filter builder *)

(** The two range dictionaries of [generate_filter], with the bounds the
    function writes into them. *)
Definition created_at_range (params : dict) : pyval :=
  let gte := get params "gte" in
  let lte := get params "lte" in
  let created_at : dict := [("format", VStr "epoch_millis")] in
  let created_at :=
    if truthy gte then Dict.set created_at "gte" gte else created_at in
  let created_at :=
    if truthy lte then Dict.set created_at "lte" lte else created_at in
  VDict [("created_at", VDict created_at)].

Definition on_created_at_range (params : dict) : pyval :=
  let gte := get params "gte" in
  let lte := get params "lte" in
  let on_cc_gte := get params "on_cc_gte" in
  let on_cc_lte := get params "on_cc_lte" in
  let ec_same_date := get params "ec_same_date" in
  let on_created_at : dict := [("format", VStr "epoch_millis")] in
  let on_cc_gte := if truthy ec_same_date then gte else on_cc_gte in
  let on_cc_lte := if truthy ec_same_date then lte else on_cc_lte in
  let on_created_at :=
    if truthy on_cc_gte || truthy ec_same_date
    then Dict.set on_created_at "gte" on_cc_gte else on_created_at in
  let on_created_at :=
    if truthy on_cc_lte || truthy ec_same_date
    then Dict.set on_created_at "lte" on_cc_lte else on_created_at in
  VDict [("on_created_at", VDict on_created_at)].

Definition generate_filter (repository_fullname : pyval) (params : dict)
  : list pyval :=
  let etype := get params "etype" in
  let author := get params "author" in
  let approval := get params "approval" in
  let state := get params "state" in
  let etype :=
    match etype with
    | VStr s => VList (chars s)
    | _ => etype
    end in
  let qfilter :=
    [ VDict [("regexp",
              VDict [("repository_fullname",
                      VDict [("value", repository_fullname)])])];
      VDict [("range", created_at_range params)];
      VDict [("range", on_created_at_range params)] ] in
  let qfilter :=
    if truthy etype
    then qfilter ++ [VDict [("terms", VDict [("type", etype)])]]
    else qfilter in
  let qfilter :=
    if truthy author
    then qfilter ++ [VDict [("term", VDict [("author", author)])]]
    else qfilter in
  let qfilter :=
    if truthy state
    then qfilter ++ [VDict [("term", VDict [("state", state)])]]
    else qfilter in
  let qfilter :=
    if truthy approval
    then qfilter ++ [VDict [("term", VDict [("approval", approval)])]]
    else qfilter in
  qfilter.

Definition generate_must_not (params : dict) (exclude_change : bool)
  : res (list pyval) :=
  match Dict.lookup params "exclude_authors" with
  | None => Raise (KeyError "exclude_authors")
  | Some exclude_authors =>
      let must_not :=
        if truthy exclude_authors
        then [VDict [("terms", VDict [("author", exclude_authors)])]]
        else [] in
      let must_not :=
        if exclude_change
        then must_not ++ [VDict [("term", VDict [("type", VStr "Change")])]]
        else must_not in
      Ok must_not
  end.

(** ** Parameter normalizer *)

Definition set_params_defaults (params : dict) : dict :=
  [ ("gte", get params "gte");
    ("lte", get params "lte");
    ("on_cc_gte", get params "on_cc_gte");
    ("on_cc_lte", get params "on_cc_lte");
    ("ec_same_date", get params "ec_same_date");
    ("etype", get params "etype");
    ("author", get params "author");
    ("interval", get_default params "interval" (VStr "3h"));
    ("size", get_default params "size" (VInt 10));
    ("exclude_authors", get_default params "exclude_authors" (VList []));
    ("approval", get params "approval") ].

(** ** Numbers

    Counts are Python integers ([bool] is a subclass of [int]); [/] is true
    division and yields a binary64 float, correctly rounded from the exact
    quotient. *)

Definition as_int (v : pyval) : res Z :=
  match v with
  | VInt z => Ok z
  | VBool b => Ok (if b then 1 else 0)
  | _ => Raise TypeError
  end.

Definition as_str (v : pyval) : res string :=
  match v with
  | VStr s => Ok s
  | _ => Raise TypeError
  end.

Definition exact_int (z : Z) : spec_float :=
  match z with
  | Z0 => S754_zero false
  | Zpos p => S754_finite false p 0
  | Zneg p => S754_finite true p 0
  end.

Definition finite_or_overflow (f : spec_float) : res spec_float :=
  match f with
  | S754_infinity _ => Raise OverflowError
  | _ => Ok f
  end.

(** [a / b] on two integers. *)
Definition int_truediv (a b : Z) : res spec_float :=
  if b =? 0 then Raise ZeroDivisionError
  else if a =? 0 then Ok (S754_zero (b <? 0))
  else finite_or_overflow (SFdiv prec emax (exact_int a) (exact_int b)).

(** [float(z)]. *)
Definition float_of_int (z : Z) : res spec_float :=
  finite_or_overflow (b64_of_Z z).

Definition is_zero (f : spec_float) : bool :=
  match f with S754_zero _ => true | _ => false end.

(** [a / b] on Python values: numbers only. *)
Definition py_truediv (a b : pyval) : res spec_float :=
  match a, b with
  | VFloat x, VFloat y =>
      if is_zero y then Raise ZeroDivisionError else Ok (SFdiv prec emax x y)
  | VFloat x, (VInt _ | VBool _) =>
      match as_int b with
      | Ok z =>
          match float_of_int z with
          | Ok y =>
              if is_zero y then Raise ZeroDivisionError
              else Ok (SFdiv prec emax x y)
          | Raise e => Raise e
          end
      | Raise e => Raise e
      end
  | (VInt _ | VBool _), VFloat y =>
      match as_int a with
      | Ok z =>
          match float_of_int z with
          | Ok x =>
              if is_zero y then Raise ZeroDivisionError
              else Ok (SFdiv prec emax x y)
          | Raise e => Raise e
          end
      | Raise e => Raise e
      end
  | (VInt _ | VBool _), (VInt _ | VBool _) =>
      match as_int a, as_int b with
      | Ok x, Ok y => int_truediv x y
      | Raise e, _ | _, Raise e => Raise e
      end
  | _, _ => Raise TypeError
  end.

(** Nearest integer, ties to even, of [num / den] for [den > 0]. *)
Definition round_half_even (num den : Z) : Z :=
  let q := num / den in
  let r := num mod den in
  match 2 * r ?= den with
  | Lt => q
  | Gt => q + 1
  | Eq => if Z.even q then q else q + 1
  end.

(** [round(x, 1)] on a float: the exact binary value is rounded to one
    decimal (ties to even) and the decimal is read back as the nearest
    float. *)
Definition round1 (x : spec_float) : spec_float :=
  match x with
  | S754_finite s m e =>
      if 0 <=? e then x
      else
        let n := round_half_even (Zpos m * 10) (2 ^ (- e)) in
        match n with
        | Zpos p =>
            SFdiv prec emax (S754_finite s p 0) (S754_finite false 10 0)
        | _ => S754_zero s
        end
  | _ => x
  end.

(** [int(x)] on a float: truncation toward zero. *)
Definition int_of_float (x : spec_float) : res Z :=
  match x with
  | S754_zero _ => Ok 0
  | S754_finite s m e =>
      let a := if 0 <=? e then Zpos m * 2 ^ e else Zpos m / 2 ^ (- e) in
      Ok (if s then - a else a)
  | S754_infinity _ => Raise OverflowError
  | S754_nan => Raise ValueError
  end.

(** ** Sorting

    [sorted] is stable; with [reverse=True] it stays stable, elements that
    compare equal keep their original order. *)

Section StableSort.
Context {A : Type}.
Variable before : A -> A -> bool.

Fixpoint insert_sorted (x : A) (l : list A) : list A :=
  match l with
  | [] => [x]
  | y :: l' =>
      if before x y then x :: y :: l' else y :: insert_sorted x l'
  end.

Fixpoint sorted (l : list A) : list A :=
  match l with
  | [] => []
  | x :: l' => insert_sorted x (sorted l')
  end.
End StableSort.

Fixpoint map_res {A B : Type} (f : A -> res B) (l : list A) : res (list B) :=
  match l with
  | [] => Ok []
  | x :: l' =>
      match f x with
      | Raise e => Raise e
      | Ok y =>
          match map_res f l' with
          | Raise e => Raise e
          | Ok ys => Ok (y :: ys)
          end
      end
  end.

Definition sum_Z (xs : list Z) : Z := fold_left Z.add xs 0.

(** [statistics.mean] on integers: an integer when the quotient is exact,
    the float of the fraction otherwise. *)
Definition mean (xs : list Z) : res pyval :=
  match xs with
  | [] => Raise StatisticsError
  | _ =>
      let total := sum_Z xs in
      let n := Z.of_nat (List.length xs) in
      if total mod n =? 0 then Ok (VInt (total / n))
      else match int_truediv total n with
           | Ok f => Ok (VFloat f)
           | Raise e => Raise e
           end
  end.

(** [statistics.median] on integers. *)
Definition median (xs : list Z) : res pyval :=
  let data := sorted Z.leb xs in
  let n := List.length data in
  match n with
  | O => Raise StatisticsError
  | _ =>
      if Nat.odd n then Ok (VInt (nth (Nat.div n 2) data 0))
      else
        let i := Nat.div n 2 in
        match int_truediv (nth (i - 1) data 0 + nth i data 0) 2 with
        | Ok f => Ok (VFloat f)
        | Raise e => Raise e
        end
  end.

(** ** Backend and effects

    The functions receive the Elasticsearch client [es]; here it is a record
    of transitions over an abstract backend state, together with the scan
    helper ([elasticsearch.helpers.scan]) and the wall clock
    ([datetime.now]).  Each operation receives its keyword arguments as one
    dictionary.  A datetime is a number of microseconds on the naive time
    line. *)

Record Client (St : Type) : Type := {
  es_search : pyval -> St -> res pyval * St;
  es_count : pyval -> St -> res pyval * St;
  scanner : pyval -> St -> res (list pyval) * St;
  datetime_now : St -> Z * St
}.
Arguments es_search {St} _ _ _.
Arguments es_count {St} _ _ _.
Arguments scanner {St} _ _ _.
Arguments datetime_now {St} _ _.

Definition M (St A : Type) : Type := St -> res A * St.

Definition ret {St A : Type} (a : A) : M St A := fun st => (Ok a, st).

Definition bind {St A B : Type} (m : M St A) (k : A -> M St B) : M St B :=
  fun st =>
    match m st with
    | (Ok a, st') => k a st'
    | (Raise e, st') => (Raise e, st')
    end.

Definition lift {St A : Type} (r : res A) : M St A := fun st => (r, st).

(** [try: m except Exception: return default]. *)
Definition try_except {St A : Type} (m : M St A) (default : A) : M St A :=
  fun st =>
    match m st with
    | (Ok a, st') => (Ok a, st')
    | (Raise _, st') => (Ok default, st')
    end.

Declare Scope py_scope.
Delimit Scope py_scope with py.
Notation "x <- m ;; k" := (bind m (fun x => k))
  (at level 100, m at next level, right associativity) : py_scope.
Open Scope py_scope.

Fixpoint for_each {St A B : Type} (body : B -> A -> M St B) (l : list A)
  (acc : B) : M St B :=
  match l with
  | [] => ret acc
  | x :: l' => acc' <- body acc x ;; for_each body l' acc'
  end.

Section Queries.
Context {St : Type}.
Variable es : Client St.
Variable index : pyval.
Variable repository_fullname : pyval.

Definition bool_query (params : dict) (exclude_change : bool) : res pyval :=
  match generate_must_not params exclude_change with
  | Raise e => Raise e
  | Ok must_not =>
      Ok (VDict
        [("bool",
          VDict [("filter", VList (generate_filter repository_fullname params));
                 ("must_not", VList must_not)])])
  end.

Definition run_query (body : pyval) : M St pyval :=
  let search_params :=
    VDict [("index", index); ("doc_type", index); ("body", body)] in
  try_except (es_search es search_params) (VList []).

Definition _scan_events (params : dict) : M St (list pyval) :=
  query <- lift (bool_query params true) ;;
  let body :=
    VDict [("_source", get_default params "field" (VList []));
           ("query", query)] in
  let scanner_params :=
    VDict [("index", index); ("doc_type", index); ("query", body)] in
  data <- scanner es scanner_params ;;
  lift (map_res (fun d => getitem d "_source") data).

Definition count_events (params : dict) : M St pyval :=
  let params := set_params_defaults params in
  query <- lift (bool_query params true) ;;
  let body := VDict [("query", query)] in
  let params := VDict [("index", index); ("doc_type", index); ("body", body)] in
  fun st =>
    match es_count es params st with
    | (Raise _, st') => (Ok (VDict []), st')
    | (Ok res, st') => (getitem res "count", st')
    end.

Definition count_authors (params : dict) : M St pyval :=
  let params := set_params_defaults params in
  query <- lift (bool_query params true) ;;
  let body :=
    VDict [("aggs",
            VDict [("agg1",
                    VDict [("cardinality",
                            VDict [("field", VStr "author");
                                   ("precision_threshold", VInt 3000)])])]);
           ("size", VInt 0);
           ("query", query)] in
  data <- run_query body ;;
  aggregations <- lift (getitem data "aggregations") ;;
  agg1 <- lift (getitem aggregations "agg1") ;;
  lift (getitem agg1 "value").

Definition events_histo (params : dict) : M St pyval :=
  let params := set_params_defaults params in
  interval <- lift (getitem (VDict params) "interval") ;;
  query <- lift (bool_query params true) ;;
  let body :=
    VDict [("aggs",
            VDict [("agg1",
                    VDict [("date_histogram",
                            VDict [("field", VStr "created_at");
                                   ("interval", interval)])]);
                   ("avg_count",
                    VDict [("avg_bucket",
                            VDict [("buckets_path", VStr "agg1>_count")])])]);
           ("size", VInt 0);
           ("query", query)] in
  data <- run_query body ;;
  aggregations <- lift (getitem data "aggregations") ;;
  agg1 <- lift (getitem aggregations "agg1") ;;
  buckets <- lift (getitem agg1 "buckets") ;;
  aggregations <- lift (getitem data "aggregations") ;;
  avg_count <- lift (getitem aggregations "avg_count") ;;
  value <- lift (getitem avg_count "value") ;;
  ret (VTuple [buckets; value]).

(** [[b['doc_count'] for b in buckets]]. *)
Definition doc_counts (buckets : list pyval) : res (list pyval) :=
  map_res (fun b => getitem b "doc_count") buckets.

Definition _events_top (field : pyval) (params : dict) : M St pyval :=
  size <- lift (getitem (VDict params) "size") ;;
  query <- lift (bool_query params true) ;;
  let body :=
    VDict [("aggs",
            VDict [("agg1",
                    VDict [("terms",
                            VDict [("field", field);
                                   ("size", size);
                                   ("order",
                                    VDict [("_count", VStr "desc")])])])]);
           ("size", VInt 0);
           ("query", query)] in
  data <- run_query body ;;
  aggregations <- lift (getitem data "aggregations") ;;
  agg1 <- lift (getitem aggregations "agg1") ;;
  buckets <- lift (getitem agg1 "buckets") ;;
  bs <- lift (py_iter buckets) ;;
  count_series <- lift (doc_counts bs) ;;
  count_avg <-
    match count_series with
    | [] => ret (VInt 0)
    | _ => ints <- lift (map_res as_int count_series) ;; lift (mean ints)
    end ;;
  count_median <-
    match count_series with
    | [] => ret (VInt 0)
    | _ => ints <- lift (map_res as_int count_series) ;; lift (median ints)
    end ;;
  ret (VDict [("buckets", buckets);
              ("count_avg", count_avg);
              ("count_median", count_median)]).

Definition events_top_authors (params : dict) : M St pyval :=
  let params := set_params_defaults params in
  _events_top (VStr "author") params.

Definition changes_top_approval (params : dict) : M St pyval :=
  let params := set_params_defaults params in
  let params := Dict.set params "etype" (VStr "ChangeReviewedEvent") in
  _events_top (VStr "approval") params.

Definition changes_top_commented (params : dict) : M St pyval :=
  let params := set_params_defaults params in
  let params := Dict.set params "etype" (VStr "ChangeCommentedEvent") in
  _events_top (VStr "repository_fullname_and_number") params.

Definition changes_top_reviewed (params : dict) : M St pyval :=
  let params := set_params_defaults params in
  let params := Dict.set params "etype" (VStr "ChangeReviewedEvent") in
  _events_top (VStr "repository_fullname_and_number") params.

Definition authors_top_reviewed (params : dict) : M St pyval :=
  let params := set_params_defaults params in
  let params := Dict.set params "etype" (VStr "ChangeReviewedEvent") in
  _events_top (VStr "on_author") params.

Definition authors_top_commented (params : dict) : M St pyval :=
  let params := set_params_defaults params in
  let params := Dict.set params "etype" (VStr "ChangeCommentedEvent") in
  _events_top (VStr "on_author") params.

End Queries.

(** ** Timestamps

    [datetime.strptime(s, "%Y-%m-%dT%H:%M:%SZ")] on byte strings: a
    four-digit year, then fields of one or two decimal digits (the day may
    also be a blank and one digit), the letters matched without regard to
    case, and the calendar checks of the [datetime] constructor.  The result
    is the number of microseconds since 1970-01-01T00:00:00 on the
    proleptic Gregorian calendar. *)

Module Datetime.

Definition digit (c : ascii) : option Z :=
  let n := Z.of_N (N_of_ascii c) in
  if (48 <=? n) && (n <=? 57) then Some (n - 48) else None.

Definition year4 (s : string) : option (Z * string) :=
  match s with
  | String a (String b (String c (String d r))) =>
      match digit a, digit b, digit c, digit d with
      | Some w, Some x, Some y, Some z =>
          Some (1000 * w + 100 * x + 10 * y + z, r)
      | _, _, _, _ => None
      end
  | _ => None
  end.

Definition field12 (s : string) : option (Z * string) :=
  match s with
  | String a r =>
      match digit a with
      | None => None
      | Some x =>
          match r with
          | String b r' =>
              match digit b with
              | Some y => Some (10 * x + y, r')
              | None => Some (x, r)
              end
          | EmptyString => Some (x, r)
          end
      end
  | EmptyString => None
  end.

Definition day_field (s : string) : option (Z * string) :=
  match s with
  | String " " (String b r) =>
      match digit b with
      | Some y => Some (y, r)
      | None => None
      end
  | _ => field12 s
  end.

Definition lower (c : ascii) : ascii :=
  let n := N_of_ascii c in
  if (65 <=? n)%N && (n <=? 90)%N then ascii_of_N (n + 32) else c.

Definition literal (c : ascii) (s : string) : option string :=
  match s with
  | String a r => if Ascii.eqb (lower a) (lower c) then Some r else None
  | EmptyString => None
  end.

Definition is_leap (y : Z) : bool :=
  ((y mod 4 =? 0) && negb (y mod 100 =? 0)) || (y mod 400 =? 0).

Definition days_in_month (y m : Z) : Z :=
  if m =? 2 then (if is_leap y then 29 else 28)
  else if (m =? 4) || (m =? 6) || (m =? 9) || (m =? 11) then 30
  else 31.

(** Days from 1970-01-01 to the given civil date. *)
Definition days_from_civil (y m d : Z) : Z :=
  let y' := if m <=? 2 then y - 1 else y in
  let era := y' / 400 in
  let yoe := y' - era * 400 in
  let mp := if 2 <? m then m - 3 else m + 9 in
  let doy := (153 * mp + 2) / 5 + d - 1 in
  let doe := yoe * 365 + yoe / 4 - yoe / 100 + doy in
  era * 146097 + doe - 719468.

Definition make (y mo d h mi s : Z) : option Z :=
  if (1 <=? y) && (1 <=? mo) && (mo <=? 12) && (1 <=? d)
     && (d <=? days_in_month y mo) && (h <=? 23) && (mi <=? 59)
     && (s <=? 59)
  then Some (((days_from_civil y mo d * 86400) + h * 3600 + mi * 60 + s)
             * 1000000)
  else None.

Definition parse (s : string) : option Z :=
  match year4 s with None => None | Some (y, s) =>
  match literal "-" s with None => None | Some s =>
  match field12 s with None => None | Some (mo, s) =>
  match literal "-" s with None => None | Some s =>
  match day_field s with None => None | Some (d, s) =>
  match literal "T" s with None => None | Some s =>
  match field12 s with None => None | Some (h, s) =>
  match literal ":" s with None => None | Some s =>
  match field12 s with None => None | Some (mi, s) =>
  match literal ":" s with None => None | Some s =>
  match field12 s with None => None | Some (sec, s) =>
  match literal "Z" s with None => None | Some s =>
  match s with
  | EmptyString => make y mo d h mi sec
  | _ => None
  end end end end end end end end end end end end end.

Definition strptime (v : pyval) : res Z :=
  match v with
  | VStr s =>
      match parse s with
      | Some t => Ok t
      | None => Raise ValueError
      end
  | _ => Raise TypeError
  end.

(** [td.seconds] of a normalized [timedelta]: the seconds left once whole
    days are taken out, between 0 and 86399. *)
Definition seconds (delta : Z) : Z := (delta / 1000000) mod 86400.

(** [td.total_seconds()], in whole seconds. *)
Definition total_seconds (delta : Z) : Z := delta / 1000000.

End Datetime.

(** ** Composite metrics *)

(** Keys of the undirected edges of [peers_exchange_strength]. *)
Definition peers_id : Type := (string * string)%type.

Definition peers_id_eqb (p q : peers_id) : bool :=
  String.eqb (fst p) (fst q) && String.eqb (snd p) (snd q).

(** [tuple(sorted((a, b)))] on two strings. *)
Definition sorted_pair (a b : string) : peers_id :=
  if String.ltb b a then (b, a) else (a, b).

(** [d.setdefault(k, 0); d[k] += n]. *)
Fixpoint add_strength (d : list (peers_id * Z)) (k : peers_id) (n : Z)
  : list (peers_id * Z) :=
  match d with
  | [] => [(k, 0 + n)]
  | (k', v) :: d' =>
      if peers_id_eqb k' k then (k', v + n) :: d'
      else (k', v) :: add_strength d' k n
  end.

Fixpoint for_each_res {A B : Type} (body : B -> A -> res B) (l : list A)
  (acc : B) : res B :=
  match l with
  | [] => Ok acc
  | x :: l' =>
      match body acc x with
      | Raise e => Raise e
      | Ok acc' => for_each_res body l' acc'
      end
  end.

(** One turn of the inner loop of [peers_exchange_strength].  Authors are
    strings (keys of a terms aggregation over a keyword field) and bucket
    sizes are integers; other values are rejected with [TypeError]. *)
Definition peers_step (author : pyval) (peers_strength : list (peers_id * Z))
  (bucket : pyval) : res (list (peers_id * Z)) :=
  match getitem bucket "key" with
  | Raise e => Raise e
  | Ok key =>
      match as_str key, as_str author with
      | Raise e, _ | _, Raise e => Raise e
      | Ok k, Ok a =>
          if String.eqb k a then Ok peers_strength
          else
            let peers_id := sorted_pair a k in
            match getitem bucket "doc_count" with
            | Raise e => Raise e
            | Ok doc_count =>
                match as_int doc_count with
                | Raise e => Raise e
                | Ok n => Ok (add_strength peers_strength peers_id n)
                end
            end
      end
  end.

(** The ranges of the duration histogram, as sent to the backend. *)
Definition duration_ranges : list pyval :=
  [ VDict [("to", VInt (24 * 3600))];
    VDict [("from", VInt (24 * 3600 + 1)); ("to", VInt (7 * 24 * 3600))];
    VDict [("from", VInt (7 * 24 * 3600 + 1)); ("to", VInt (31 * 24 * 3600))];
    VDict [("from", VInt (31 * 24 * 3600 + 1))] ].

(** Per-change record of [_first_event_on_changes]. *)
Record group : Type := {
  change_created_at : option Z;
  first_event_created_at : Z;
  first_event_author : pyval;
  delta : option Z
}.

(** One turn of the inner loop of [_first_event_on_changes]. *)
Definition group_step (g : group) (event : pyval) : res group :=
  let with_created :=
    match change_created_at g with
    | Some _ => Ok g
    | None =>
        match getitem event "on_created_at" with
        | Raise e => Raise e
        | Ok v =>
            match Datetime.strptime v with
            | Raise e => Raise e
            | Ok t =>
                Ok {| change_created_at := Some t;
                      first_event_created_at := first_event_created_at g;
                      first_event_author := first_event_author g;
                      delta := delta g |}
            end
        end
    end in
  match with_created with
  | Raise e => Raise e
  | Ok g =>
      match getitem event "created_at" with
      | Raise e => Raise e
      | Ok v =>
          match Datetime.strptime v with
          | Raise e => Raise e
          | Ok event_created_at =>
              if event_created_at <? first_event_created_at g then
                match change_created_at g with
                | None => Raise TypeError
                | Some created =>
                    match getitem event "author" with
                    | Raise e => Raise e
                    | Ok author =>
                        Ok {| change_created_at := Some created;
                              first_event_created_at := event_created_at;
                              first_event_author := author;
                              delta := Some (event_created_at - created) |}
                    end
                end
              else Ok g
          end
      end
  end.

(** [itertools.groupby] over a list already paired with its keys: runs of
    consecutive equal keys. *)
Fixpoint groupby (l : list (string * pyval)) : list (string * list pyval) :=
  match l with
  | [] => []
  | (k, x) :: l' =>
      match groupby l' with
      | (k', xs) :: gs =>
          if String.eqb k k' then (k, x :: xs) :: gs
          else (k, [x]) :: (k', xs) :: gs
      | [] => [(k, [x])]
      end
  end.

(** [d.setdefault(k, 0); d[k] += 1]. *)
Fixpoint count_author (d : list (string * Z)) (k : string) : list (string * Z) :=
  match d with
  | [] => [(k, 0 + 1)]
  | (k', v) :: d' =>
      if String.eqb k' k then (k', v + 1) :: d' else (k', v) :: count_author d' k
  end.

(** The key of an event for sorting and grouping: the change identifier, a
    string (a keyword field). *)
Definition keyfunc (x : pyval) : res (string * pyval) :=
  match getitem x "repository_fullname_and_number" with
  | Raise e => Raise e
  | Ok k =>
      match as_str k with
      | Raise e => Raise e
      | Ok s => Ok (s, x)
      end
  end.

(** Second loop of [_first_event_on_changes]: totals over the groups. *)
Definition tally (acc : Z * list (string * Z)) (pr_data : group)
  : res (Z * list (string * Z)) :=
  match delta pr_data with
  | None => Raise AttributeError
  | Some d =>
      match as_str (first_event_author pr_data) with
      | Raise e => Raise e
      | Ok a => Ok (fst acc + Datetime.seconds d, count_author (snd acc) a)
      end
  end.

Section Composite.
Context {St : Type}.
Variable es : Client St.
Variable index : pyval.
Variable repository_fullname : pyval.

(** One turn of the outer loop of [peers_exchange_strength]: the loop
    carries [params], whose [author] entry it overwrites, and the weights
    accumulated so far. *)
Definition peers_turn (acc : dict * list (peers_id * Z)) (author : pyval)
  : M St (dict * list (peers_id * Z)) :=
  let params := Dict.set (fst acc) "author" author in
  top <- _events_top es index repository_fullname (VStr "on_author") params ;;
  buckets <- lift (getitem top "buckets") ;;
  bs <- lift (py_iter buckets) ;;
  peers_strength <- lift (for_each_res (peers_step author) bs (snd acc)) ;;
  ret (params, peers_strength).

Definition peers_exchange_strength (params : dict)
  : M St (list (peers_id * Z)) :=
  let params := set_params_defaults params in
  let params :=
    Dict.set params "etype"
      (VTuple [VStr "ChangeReviewedEvent"; VStr "ChangeCommentedEvent"]) in
  top <- _events_top es index repository_fullname (VStr "author") params ;;
  buckets <- lift (getitem top "buckets") ;;
  bs <- lift (py_iter buckets) ;;
  authors <- lift (map_res (fun bucket => getitem bucket "key") bs) ;;
  loop <- for_each peers_turn authors (params, []) ;;
  ret (sorted (fun x y : peers_id * Z => snd y <=? snd x) (snd loop)).

Definition change_merged_count_by_duration (params : dict) : M St pyval :=
  let params := set_params_defaults params in
  let params := Dict.set params "etype" (VTuple [VStr "Change"]) in
  let params := Dict.set params "state" (VStr "MERGED") in
  query <- lift (bool_query repository_fullname params false) ;;
  let body :=
    VDict [("aggs",
            VDict [("agg1",
                    VDict [("range",
                            VDict [("field", VStr "duration");
                                   ("ranges", VList duration_ranges);
                                   ("keyed", VBool true)])])]);
           ("size", VInt 0);
           ("query", query)] in
  data <- run_query es index body ;;
  aggregations <- lift (getitem data "aggregations") ;;
  agg1 <- lift (getitem aggregations "agg1") ;;
  lift (getitem agg1 "buckets").

Definition pr_merged_avg_duration (params : dict) : M St pyval :=
  let params := set_params_defaults params in
  let params := Dict.set params "etype" (VTuple [VStr "Change"]) in
  let params := Dict.set params "state" (VStr "MERGED") in
  query <- lift (bool_query repository_fullname params false) ;;
  let body :=
    VDict [("aggs",
            VDict [("agg1",
                    VDict [("avg", VDict [("field", VStr "duration")])])]);
           ("size", VInt 0);
           ("docvalue_fields",
            VList [VDict [("field", VStr "created_at");
                          ("format", VStr "date_time")]]);
           ("query", query)] in
  data <- run_query es index body ;;
  aggregations <- lift (getitem data "aggregations") ;;
  lift (getitem aggregations "agg1").

Definition changes_events_counters (params : dict) : M St pyval :=
  let params := set_params_defaults params in
  loop <-
    for_each
      (fun (acc : dict * dict) etype =>
         let params := Dict.set (fst acc) "etype" (VTuple [VStr etype]) in
         events_count <- count_events es index repository_fullname params ;;
         authors_count <- count_authors es index repository_fullname params ;;
         ret (params,
              Dict.set (snd acc) etype
                (VDict [("events_count", events_count);
                        ("authors_count", authors_count)])))
      ["ChangeCreatedEvent"; "ChangeReviewedEvent"; "ChangeCommentedEvent";
       "ChangeAbandonedEvent"; "ChangeMergedEvent"]
      (params, []) ;;
  ret (VDict (snd loop)).

(** [round(a / b * 100, 1)]. *)
Definition percentage (a b : pyval) : res pyval :=
  match py_truediv a b with
  | Raise e => Raise e
  | Ok q => Ok (VFloat (round1 (SFmul prec emax q (b64_of_Z 100))))
  end.

Definition changes_closed_ratios (params : dict) : M St pyval :=
  let params := set_params_defaults params in
  let etypes :=
    ["ChangeCreatedEvent"; "ChangeMergedEvent"; "ChangeAbandonedEvent"] in
  loop <-
    for_each
      (fun (acc : dict * dict) etype =>
         let params := Dict.set (fst acc) "etype" (VTuple [VStr etype]) in
         n <- count_events es index repository_fullname params ;;
         ret (params, Dict.set (snd acc) etype n))
      etypes (params, []) ;;
  let ret0 := snd loop in
  merged <- lift (getitem (VDict ret0) "ChangeMergedEvent") ;;
  created <- lift (getitem (VDict ret0) "ChangeCreatedEvent") ;;
  r1 <- lift (percentage merged created) ;;
  let ret1 := Dict.set ret0 "merged/created_ratio" r1 in
  abandoned <- lift (getitem (VDict ret1) "ChangeAbandonedEvent") ;;
  merged <- lift (getitem (VDict ret1) "ChangeMergedEvent") ;;
  r2 <- lift (percentage abandoned merged) ;;
  let ret2 := Dict.set ret1 "abandoned/created_ratio" r2 in
  ret (VDict (fold_left (fun d etype => Dict.remove d etype) etypes ret2)).

Definition _first_event_on_changes (params : dict) : M St pyval :=
  let params := set_params_defaults params in
  _events <- _scan_events es index repository_fullname params ;;
  keyed <- lift (map_res keyfunc _events) ;;
  let _events :=
    sorted (fun x y : string * pyval => String.leb (fst x) (fst y)) keyed in
  groups <-
    for_each
      (fun (groups : list (string * group)) (pe : string * list pyval) =>
         now <- (fun st => let (t, st') := datetime_now es st in (Ok t, st')) ;;
         let init :=
           {| change_created_at := None;
              first_event_created_at := now;
              first_event_author := VNone;
              delta := None |} in
         g <- lift (for_each_res group_step (snd pe) init) ;;
         ret (Dict.set groups (fst pe) g))
      (groupby _events) [] ;;
  totals <- lift (for_each_res tally (map snd groups) (0, [])) ;;
  q <- lift (int_truediv (fst totals) (Z.of_nat (List.length groups))) ;;
  first_event_delay_avg <- lift (int_of_float q) ;;
  let top_authors :=
    firstn 10
      (sorted (fun x y : string * Z => snd y <=? snd x) (snd totals)) in
  ret (VDict
         [("first_event_delay_avg", VInt first_event_delay_avg);
          ("top_authors",
           VList (map (fun kv : string * Z => VTuple [VStr (fst kv); VInt (snd kv)])
                    top_authors))]).

Definition first_comment_on_changes (params : dict) : M St pyval :=
  let params := set_params_defaults params in
  let params := Dict.set params "etype" (VTuple [VStr "ChangeCommentedEvent"]) in
  _first_event_on_changes params.

Definition first_review_on_changes (params : dict) : M St pyval :=
  let params := set_params_defaults params in
  let params := Dict.set params "etype" (VTuple [VStr "ChangeReviewedEvent"]) in
  _first_event_on_changes params.

End Composite.

(** ** Observers on built queries *)

(** [v[k1][k2]...]. *)
Fixpoint path (v : pyval) (ks : list string) : res pyval :=
  match ks with
  | [] => Ok v
  | k :: ks' =>
      match getitem v k with
      | Ok v' => path v' ks'
      | Raise e => Raise e
      end
  end.

(** The arguments of the predicates [{kind: {field: x}}] of a filter. *)
Fixpoint predicates_on (kind field : string) (qfilter : list pyval)
  : list pyval :=
  match qfilter with
  | [] => []
  | p :: rest =>
      match path p [kind; field] with
      | Ok x => x :: predicates_on kind field rest
      | Raise _ => predicates_on kind field rest
      end
  end.

(** The bound [k] of the range predicate on [field], when the predicate
    carries that key. *)
Definition bound (field k : string) (qfilter : list pyval) : option pyval :=
  match predicates_on "range" field qfilter with
  | VDict d :: _ => Dict.lookup d k
  | _ => None
  end.

(** A value was supplied under key [k]: the key is there and is not [None]. *)
Definition supplied (params : dict) (k : string) (v : pyval) : Prop :=
  Dict.lookup params k = Some v /\ v <> VNone.

(** Every bound of the two range predicates comes from the parameters. *)
Definition only_supplied_bounds (params : dict) (qfilter : list pyval) : Prop :=
  forall k, k = "gte" \/ k = "lte" ->
    (forall v, bound "created_at" k qfilter = Some v -> supplied params k v) /\
    (forall v, bound "on_created_at" k qfilter = Some v ->
       supplied params ("on_cc_" ++ k) v \/
       (truthy (get params "ec_same_date") = true /\ supplied params k v)).

(** ** A scripted client

    A test double: answers are served from a script in call order and every
    request is logged.  An exhausted script is a transport failure. *)

Record mock : Type := {
  pending : list (res pyval);
  calls : list pyval;
  clock : Z
}.

Definition serve (kwargs : pyval) (st : mock) : res pyval * mock :=
  match pending st with
  | [] =>
      (Raise TransportError,
       {| pending := []; calls := calls st ++ [kwargs]; clock := clock st |})
  | r :: rest =>
      (r, {| pending := rest; calls := calls st ++ [kwargs]; clock := clock st |})
  end.

Definition serve_scan (kwargs : pyval) (st : mock) : res (list pyval) * mock :=
  match serve kwargs st with
  | (Ok (VList hits), st') => (Ok hits, st')
  | (Ok _, st') => (Raise TypeError, st')
  | (Raise e, st') => (Raise e, st')
  end.

Definition scripted : Client mock :=
  {| es_search := serve;
     es_count := serve;
     scanner := serve_scan;
     datetime_now := fun st => (clock st, st) |}.

Definition script (answers : list (res pyval)) (now : Z) : mock :=
  {| pending := answers; calls := []; clock := now |}.

(** The positive filter of a logged request. *)
Definition logged_filter (kwargs : pyval) : list pyval :=
  match path kwargs ["body"; "query"; "bool"; "filter"] with
  | Ok (VList f) => f
  | _ => []
  end.

(** ** Specification vocabulary and test clients *)

(** [[x]] when the condition holds, nothing otherwise. *)
Definition when (b : bool) (p : pyval) : list pyval := if b then [p] else [].

(** The etype as [generate_filter] uses it: a string is exploded by
    [list(etype)]. *)
Definition listed_etype (params : dict) : pyval :=
  match get params "etype" with
  | VStr s => VList (chars s)
  | _ => get params "etype"
  end.

(** After a pure step the backend state is where the step found it. *)
Ltac run_pure :=
  repeat (unfold bind at 1, lift at 1, ret;
          match goal with
          | |- context [match ?r with Ok _ => _ | Raise _ => _ end] =>
              destruct r; cbn [fst snd]
          | |- context [match ?l with [] => _ | _ :: _ => _ end] =>
              destruct l; cbn [fst snd]
          end);
  try reflexivity.

(** The characters of ["ChangeReviewedEvent"], one string each. *)
Definition exploded_reviewed : list pyval :=
  map VStr ["C"; "h"; "a"; "n"; "g"; "e"; "R"; "e"; "v"; "i"; "e"; "w"; "e";
            "d"; "E"; "v"; "e"; "n"; "t"].

(** A client that gives the same answers whatever it is asked. *)
Definition always (search count : res pyval) (hits : res (list pyval))
  (now : Z) : Client unit :=
  {| es_search := fun _ st => (search, st);
     es_count := fun _ st => (count, st);
     scanner := fun _ st => (hits, st);
     datetime_now := fun st => (now, st) |}.

(** A backend that cannot be reached: every call fails. *)
Definition unreachable : Client unit :=
  always (Raise TransportError) (Raise TransportError) (Raise TransportError) 0.

(** What [_events_top] returns for a ranking without buckets. *)
Definition no_ranking : pyval :=
  VDict [("buckets", VList []); ("count_avg", VInt 0); ("count_median", VInt 0)].

(** A search answer whose term ranking has no bucket. *)
Definition empty_ranking_answer : pyval :=
  VDict [("hits", VDict [("total", VInt 0)]);
         ("aggregations", VDict [("agg1", VDict [("buckets", VList [])])])].

(** The parameters of the count issued for one event type. *)
Definition etype_params (params : dict) (etype : string) : dict :=
  Dict.set (set_params_defaults params) "etype" (VTuple [VStr etype]).

(** The answer of [es.count] for [n] documents. *)
Definition count_answer (n : Z) : res pyval := Ok (VDict [("count", VInt n)]).

(** Modelled from the spec: the range aggregation of the backend, which is
    not part of the repository.  A range holds the documents whose value is
    at least [from] (when given) and strictly below [to] (when given). *)
Definition in_range (r : pyval) (duration : Z) : bool :=
  match getitem r "from" with
  | Ok (VInt a) => a <=? duration
  | _ => true
  end
  &&
  match getitem r "to" with
  | Ok (VInt b) => duration <? b
  | _ => true
  end.

(** For each of the four ranges in order, whether it counts a change of the
    given duration. *)
Definition buckets_counting (duration : Z) : list bool :=
  map (fun r => in_range r duration) duration_ranges.

(** A scanned hit carrying one event. *)
Definition hit (change created_at on_created_at author : string) : pyval :=
  VDict [("_index", VStr "monocle");
         ("_source",
          VDict [("repository_fullname_and_number", VStr change);
                 ("created_at", VStr created_at);
                 ("on_created_at", VStr on_created_at);
                 ("author", VStr author)])].

(** A change created on 2020-01-01 at midnight whose only comment comes
    twenty-five hours later; the clock reads 2021-01-01. *)
Definition late_comment : mock :=
  script
    [Ok (VList [hit "openstack/nova-1" "2020-01-02T01:00:00Z"
                  "2020-01-01T00:00:00Z" "alice"])]
    1609459200000000.

(** Descending order on the counts of a ranking. *)
Definition descending {K : Type} (l : list (K * Z)) : Prop :=
  StronglySorted (fun x y => snd y <= snd x) l.

(** The ranking part of an answer of [_first_event_on_changes]. *)
Definition ranking_entry (kv : string * Z) : pyval :=
  VTuple [VStr (fst kv); VInt (snd kv)].

(** The weight recorded for a pair in a list of edges. *)
Fixpoint weight (edges : list (peers_id * Z)) (p : peers_id) : Z :=
  match edges with
  | [] => 0
  | (q, w) :: rest => (if peers_id_eqb q p then w else 0) + weight rest p
  end.

(** What one bucket of the partner ranking of [author] says about the
    direction [a] to [b]: its [doc_count] when the ranking is the one of [a]
    and the bucket is the one of [b]. *)
Definition sent (author bucket : pyval) (a b : string) : Z :=
  match author, getitem bucket "key", getitem bucket "doc_count" with
  | VStr a', Ok (VStr k), Ok c =>
      if String.eqb a' a && String.eqb k b
      then match as_int c with Ok n => n | Raise _ => 0 end
      else 0
  | _, _, _ => 0
  end.

(** The directional count from [a] to [b] in the partner rankings that were
    fetched, one ranking per author. *)
Definition directional (rankings : list (pyval * list pyval)) (a b : string)
  : Z :=
  fold_right
    (fun r acc =>
       fold_right (fun bucket acc' => sent (fst r) bucket a b + acc') 0 (snd r)
       + acc)
    0 rankings.

(** The partner rankings the loop of [peers_exchange_strength] obtains from
    the backend: for each author in turn, the buckets of the ranking over
    [on_author] with [author] fixed. *)
Fixpoint partner_rankings {St : Type} (es : Client St) (index repo : pyval)
  (params : dict) (authors : list pyval) (rankings : list (pyval * list pyval))
  (st st' : St) : Prop :=
  match authors, rankings with
  | [], [] => st' = st
  | author :: authors', (a, bs) :: rankings' =>
      a = author /\
      exists top buckets st1,
        _events_top es index repo (VStr "on_author")
          (Dict.set params "author" author) st = (Ok top, st1) /\
        getitem top "buckets" = Ok buckets /\
        py_iter buckets = Ok bs /\
        partner_rankings es index repo (Dict.set params "author" author)
          authors' rankings' st1 st'
  | _, _ => False
  end.

(** The parameters [peers_exchange_strength] starts from. *)
Definition peers_params (params : dict) : dict :=
  Dict.set (set_params_defaults params) "etype"
    (VTuple [VStr "ChangeReviewedEvent"; VStr "ChangeCommentedEvent"]).

(** The authors and partner rankings behind a run: the top authors come
    from the ranking over [author], then one partner ranking each. *)
Definition fetched {St : Type} (es : Client St) (index repo : pyval)
  (params : dict) (rankings : list (pyval * list pyval)) (st st' : St) : Prop :=
  exists top buckets bs authors st1,
    _events_top es index repo (VStr "author") (peers_params params) st
    = (Ok top, st1) /\
    getitem top "buckets" = Ok buckets /\
    py_iter buckets = Ok bs /\
    map_res (fun bucket => getitem bucket "key") bs = Ok authors /\
    partner_rankings es index repo (peers_params params) authors rankings st1 st'.

(** Keys are strictly ordered pairs, each recorded once. *)
Definition well_keyed (d : list (peers_id * Z)) : Prop :=
  (forall p, In p (map fst d) -> String.ltb (fst p) (snd p) = true) /\
  NoDup (map fst d).

(** A bucket of a terms aggregation and the answer carrying a ranking. *)
Definition bucket (key : string) (doc_count : Z) : pyval :=
  VDict [("key", VStr key); ("doc_count", VInt doc_count)].

Definition ranking_answer (buckets : list pyval) : res pyval :=
  Ok (VDict [("aggregations", VDict [("agg1", VDict [("buckets", VList buckets)])])]).

(** Two top authors; alice's partners are bob, herself and carol, bob's
    only partner is alice. *)
Definition review_exchange : mock :=
  script
    [ ranking_answer [bucket "alice" 9; bucket "bob" 4];
      ranking_answer [bucket "bob" 3; bucket "alice" 2; bucket "carol" 1];
      ranking_answer [bucket "alice" 4] ]
    0.

(** *** Vocabulary of the further properties *)

(** The negative filter of a logged search or count request. *)
Definition logged_must_not (kwargs : pyval) : list pyval :=
  match path kwargs ["body"; "query"; "bool"; "must_not"] with
  | Ok (VList f) => f
  | _ => []
  end.

(** The positive and negative filters of a logged scan request. *)
Definition scanned_filter (kwargs : pyval) : list pyval :=
  match path kwargs ["query"; "query"; "bool"; "filter"] with
  | Ok (VList f) => f
  | _ => []
  end.

Definition scanned_must_not (kwargs : pyval) : list pyval :=
  match path kwargs ["query"; "query"; "bool"; "must_not"] with
  | Ok (VList f) => f
  | _ => []
  end.

(** The keys [set_params_defaults] always returns, in order. *)
Definition normalized_keys : list string :=
  ["gte"; "lte"; "on_cc_gte"; "on_cc_lte"; "ec_same_date"; "etype"; "author";
   "interval"; "size"; "exclude_authors"; "approval"].

(** The record [_first_event_on_changes] starts a group with. *)
Definition fresh_group (now : Z) : group :=
  {| change_created_at := None;
     first_event_created_at := now;
     first_event_author := VNone;
     delta := None |}.

(** [strptime(event['created_at'], ...)]. *)
Definition event_time (event : pyval) : res Z :=
  match getitem event "created_at" with
  | Ok v => Datetime.strptime v
  | Raise e => Raise e
  end.

(** [strptime(event['on_created_at'], ...)]. *)
Definition change_time (event : pyval) : res Z :=
  match getitem event "on_created_at" with
  | Ok v => Datetime.strptime v
  | Raise e => Raise e
  end.

(** The answer of a cardinality aggregation. *)
Definition cardinality_answer (value : pyval) : res pyval :=
  Ok (VDict [("aggregations", VDict [("agg1", VDict [("value", value)])])]).

(** * Properties *)

(** ** Filter builder *)

Lemma truthy_not_none (v : pyval) : truthy v = true -> v <> VNone.
Proof. intros H E; subst v; discriminate H. Qed.

Lemma get_supplied (params : dict) (k : string) :
  truthy (get params k) = true -> supplied params k (get params k).
Proof.
  unfold supplied, get.
  destruct (Dict.lookup params k) as [v|] eqn:E; simpl; intro H.
  - split; [reflexivity | now apply truthy_not_none].
  - discriminate H.
Qed.

Lemma generate_filter_shape (repo : pyval) (params : dict) :
  generate_filter repo params =
  [ VDict [("regexp", VDict [("repository_fullname", VDict [("value", repo)])])];
    VDict [("range", created_at_range params)];
    VDict [("range", on_created_at_range params)] ]
  ++ when (truthy (listed_etype params))
       (VDict [("terms", VDict [("type", listed_etype params)])])
  ++ when (truthy (get params "author"))
       (VDict [("term", VDict [("author", get params "author")])])
  ++ when (truthy (get params "state"))
       (VDict [("term", VDict [("state", get params "state")])])
  ++ when (truthy (get params "approval"))
       (VDict [("term", VDict [("approval", get params "approval")])]).
Proof.
  unfold generate_filter; change (match get params "etype" with
                                   | VStr s => VList (chars s)
                                   | _ => get params "etype"
                                   end) with (listed_etype params).
  destruct (truthy (listed_etype params)), (truthy (get params "author")),
    (truthy (get params "state")), (truthy (get params "approval"));
    reflexivity.
Qed.

Lemma bound_created_at (repo : pyval) (params : dict) (k : string) :
  k = "gte" \/ k = "lte" ->
  bound "created_at" k (generate_filter repo params) =
  if truthy (get params k) then Some (get params k) else None.
Proof.
  intros Hk; rewrite generate_filter_shape.
  unfold bound, created_at_range; cbn [app predicates_on path getitem Dict.lookup String.eqb Ascii.eqb Bool.eqb].
  destruct Hk as [-> | ->];
    destruct (truthy (get params "gte")), (truthy (get params "lte"));
    reflexivity.
Qed.

Lemma bound_on_created_at (repo : pyval) (params : dict) (k : string) :
  k = "gte" \/ k = "lte" ->
  bound "on_created_at" k (generate_filter repo params) =
  if truthy (get params "ec_same_date") then Some (get params k)
  else if truthy (get params ("on_cc_" ++ k))
       then Some (get params ("on_cc_" ++ k)) else None.
Proof.
  intros Hk; rewrite generate_filter_shape.
  unfold bound, on_created_at_range, created_at_range;
    cbn [app predicates_on path getitem Dict.lookup String.eqb Ascii.eqb Bool.eqb].
  destruct Hk as [-> | ->]; cbn [String.append];
    destruct (truthy (get params "ec_same_date"));
    destruct (truthy (get params "gte")), (truthy (get params "lte")),
      (truthy (get params "on_cc_gte")), (truthy (get params "on_cc_lte"));
    reflexivity.
Qed.

Lemma normalized_exclude_authors (params : dict) :
  Dict.lookup (set_params_defaults params) "exclude_authors" =
  Some (get_default params "exclude_authors" (VList [])).
Proof. reflexivity. Qed.

Lemma normalized_size (params : dict) :
  Dict.lookup (set_params_defaults params) "size" =
  Some (get_default params "size" (VInt 10)).
Proof. reflexivity. Qed.

Lemma normalized_state (params : dict) :
  get (set_params_defaults params) "state" = VNone.
Proof. reflexivity. Qed.

(** C4. When [etype] is the single string ["ChangeReviewedEvent"], the
    inclusion predicate built by [generate_filter] does not hold the
    one-element set of that event type: [list(etype)] splits the string and
    the predicate lists its nineteen characters.  [changes_top_approval],
    which sets [etype] to that string itself, sends this predicate to the
    backend whatever the caller's parameters are. *)
Theorem single_etype_is_split_into_characters :
  (forall repo,
     predicates_on "terms" "type"
       (generate_filter repo [("etype", VStr "ChangeReviewedEvent")])
     = [VList exploded_reviewed]) /\
  VList exploded_reviewed <> VList [VStr "ChangeReviewedEvent"] /\
  (forall index repo params answers now,
     exists kwargs,
       calls (snd (changes_top_approval scripted index repo params
                     (script answers now))) = [kwargs] /\
       predicates_on "terms" "type" (logged_filter kwargs)
       = [VList exploded_reviewed]).
Proof.
  split; [intro repo; reflexivity | split; [discriminate |]].
  intros index repo params answers now.
  unfold changes_top_approval, _events_top.
  set (p := Dict.set (set_params_defaults params) "etype"
              (VStr "ChangeReviewedEvent")).
  assert (Hsize : getitem (VDict p) "size"
                  = Ok (get_default params "size" (VInt 10))) by reflexivity.
  assert (Hq : exists mn,
             bool_query repo p true
             = Ok (VDict [("bool",
                           VDict [("filter", VList (generate_filter repo p));
                                  ("must_not", VList mn)])])).
  { unfold bool_query, generate_must_not.
    change (Dict.lookup p "exclude_authors")
      with (Some (get_default params "exclude_authors" (VList []))).
    eexists; reflexivity. }
  destruct Hq as [mn Hq].
  unfold bind at 1, lift at 1; rewrite Hsize.
  unfold bind at 1, lift at 1; rewrite Hq.
  eexists; split.
  - unfold bind at 1, run_query, try_except, scripted, es_search, serve, script;
      cbn [pending calls clock app].
    destruct answers as [|[a|e] rest]; cbn [calls app]; run_pure.
  - unfold logged_filter; cbn [path getitem Dict.lookup String.eqb Ascii.eqb Bool.eqb].
    rewrite generate_filter_shape.
    change (listed_etype p) with (VList exploded_reviewed).
    cbn [truthy when exploded_reviewed map app predicates_on path getitem
           Dict.lookup String.eqb Ascii.eqb Bool.eqb].
    destruct (truthy (get p "author")), (truthy (get p "state")),
      (truthy (get p "approval")); reflexivity.
Qed.

(** C5. Normalization does not keep [state]: [set_params_defaults] has no
    entry for it, so the filter built from normalized parameters never
    carries the exact-match predicate on [state], although [generate_filter]
    builds it from the raw parameters.  [count_events] called with
    [state = "MERGED"] sends a filter with the three leading predicates
    only. *)
Theorem normalization_drops_state :
  (forall repo params,
     predicates_on "term" "state"
       (generate_filter repo (set_params_defaults params)) = []) /\
  (forall repo,
     predicates_on "term" "state"
       (generate_filter repo [("state", VStr "MERGED")]) = [VStr "MERGED"]) /\
  (forall index repo now,
     let params := [("state", VStr "MERGED")] in
     let run :=
       count_events scripted index repo params
         (script [Ok (VDict [("count", VInt 7)])] now) in
     fst run = Ok (VInt 7) /\
     map logged_filter (calls (snd run))
     = [[ VDict [("regexp",
                  VDict [("repository_fullname", VDict [("value", repo)])])];
          VDict [("range",
                  VDict [("created_at",
                          VDict [("format", VStr "epoch_millis")])])];
          VDict [("range",
                  VDict [("on_created_at",
                          VDict [("format", VStr "epoch_millis")])])] ]]).
Proof.
  split; [| split; [intro repo; reflexivity | intros index repo now; split; reflexivity]].
  intros repo params.
  rewrite generate_filter_shape, normalized_state.
  cbn [truthy when app predicates_on path getitem Dict.lookup String.eqb
         Ascii.eqb Bool.eqb].
  destruct (truthy (listed_etype (set_params_defaults params))),
    (truthy (get (set_params_defaults params) "author")),
    (truthy (get (set_params_defaults params) "approval")); reflexivity.
Qed.

(** C6, the claim as stated fails: with [ec_same_date] set and no [gte]
    given, the range predicate on [on_created_at] carries a [gte] key that
    no parameter supplied. *)
Lemma ec_same_date_carries_absent_bounds :
  ~ only_supplied_bounds [("ec_same_date", VBool true)]
      (generate_filter (VStr "openstack/nova") [("ec_same_date", VBool true)]).
Proof.
  intro H.
  destruct (H "gte" (or_introl eq_refl)) as [_ Hon].
  destruct (Hon VNone eq_refl) as [[_ Hne] | [_ [_ Hne]]]; now apply Hne.
Qed.

(** C6, amended.  When [ec_same_date] is not set, every bound of the two
    range predicates was supplied in the parameters.  When it is set, the
    bounds on [created_at] are still supplied ones, and the predicate on
    [on_created_at] always carries both keys, holding [params.get("gte")]
    and [params.get("lte")], that is [None] for a bound that is absent. *)
Theorem generate_filter_bounds (repo : pyval) (params : dict) :
  (truthy (get params "ec_same_date") = false ->
   only_supplied_bounds params (generate_filter repo params)) /\
  (truthy (get params "ec_same_date") = true ->
   forall k, k = "gte" \/ k = "lte" ->
     (forall v, bound "created_at" k (generate_filter repo params) = Some v ->
                supplied params k v) /\
     bound "on_created_at" k (generate_filter repo params)
     = Some (get params k)).
Proof.
  assert (Hc : forall k, k = "gte" \/ k = "lte" ->
               forall v, bound "created_at" k (generate_filter repo params)
                         = Some v -> supplied params k v).
  { intros k Hk v. rewrite (bound_created_at repo params k Hk).
    destruct (truthy (get params k)) eqn:E; [| discriminate].
    intros [= <-]. now apply get_supplied. }
  split; intros Hec.
  - intros k Hk; split; [now apply Hc |].
    intros v. rewrite (bound_on_created_at repo params k Hk), Hec.
    destruct (truthy (get params ("on_cc_" ++ k))) eqn:E; [| discriminate].
    intros [= <-]. left. now apply get_supplied.
  - intros k Hk; split; [now apply Hc |].
    now rewrite (bound_on_created_at repo params k Hk), Hec.
Qed.

Lemma generate_filter_bounds_witness :
  only_supplied_bounds
    [("gte", VInt 1546300800000); ("on_cc_lte", VInt 1577836800000)]
    (generate_filter (VStr "openstack/nova")
       [("gte", VInt 1546300800000); ("on_cc_lte", VInt 1577836800000)]) /\
  bound "on_created_at" "lte"
    (generate_filter (VStr "openstack/nova")
       [("ec_same_date", VBool true); ("gte", VInt 1546300800000)])
  = Some VNone.
Proof.
  split.
  - apply (proj1 (generate_filter_bounds (VStr "openstack/nova")
                    [("gte", VInt 1546300800000);
                     ("on_cc_lte", VInt 1577836800000)])).
    reflexivity.
  - apply (proj2 (generate_filter_bounds (VStr "openstack/nova")
                    [("ec_same_date", VBool true);
                     ("gte", VInt 1546300800000)]) eq_refl "lte").
    right; reflexivity.
Defined.

(** ** Query execution *)

Lemma bool_query_ok (repo : pyval) (p : dict) (b : bool) (x : pyval) :
  Dict.lookup p "exclude_authors" = Some x ->
  exists mn,
    bool_query repo p b
    = Ok (VDict [("bool",
                  VDict [("filter", VList (generate_filter repo p));
                         ("must_not", VList mn)])]).
Proof.
  intros H. unfold bool_query, generate_must_not. rewrite H.
  eexists; reflexivity.
Qed.

Section RunQuery.
Context {St : Type}.
Variable es : Client St.
Variables index repo : pyval.

Lemma run_query_failure (body : pyval) (st : St) :
  (forall kw, exists e, fst (es_search es kw st) = Raise e) ->
  fst (run_query es index body st) = Ok (VList []).
Proof.
  intros H. unfold run_query, try_except.
  destruct (H (VDict [("index", index); ("doc_type", index); ("body", body)]))
    as [e He].
  destruct (es_search es _ st) as [[a|e'] st']; [discriminate He | reflexivity].
Qed.

(** A function that subscripts the answer of [run_query] right away
    raises [TypeError] when the search failed. *)
Lemma subscript_after_failure {A : Type} (body : pyval) (k : string)
  (rest : pyval -> pyval -> M St A) (st : St) :
  (forall kw, exists e, fst (es_search es kw st) = Raise e) ->
  fst ((data <- run_query es index body ;;
        x <- lift (getitem data k) ;; rest data x) st) = Raise TypeError.
Proof.
  intros H. pose proof (run_query_failure body st H) as Hr.
  unfold bind at 1.
  destruct (run_query es index body st) as [[a|e] st']; cbn [fst] in Hr.
  - injection Hr as ->. reflexivity.
  - discriminate Hr.
Qed.
End RunQuery.

(** C1. A failure of the backend is turned into the empty list by
    [run_query], and [count_events] returns an empty dictionary; but the
    metric functions built on [run_query] subscript that list with a string
    and raise [TypeError] to their caller.  So the metric computation does
    raise past its boundary. *)
Theorem backend_failure_escapes_as_type_error
  {St : Type} (es : Client St) (index repo : pyval) (params : dict) (st : St) :
  ((forall kw, exists e, fst (es_search es kw st) = Raise e) ->
   (forall body, fst (run_query es index body st) = Ok (VList [])) /\
   fst (count_authors es index repo params st) = Raise TypeError /\
   fst (events_histo es index repo params st) = Raise TypeError /\
   fst (events_top_authors es index repo params st) = Raise TypeError /\
   fst (change_merged_count_by_duration es index repo params st)
   = Raise TypeError) /\
  ((forall kw, exists e, fst (es_count es kw st) = Raise e) ->
   fst (count_events es index repo params st) = Ok (VDict [])).
Proof.
  split; intros H.
  - split; [intro body; now apply run_query_failure |].
    repeat split.
    + unfold count_authors.
      destruct (bool_query_ok repo (set_params_defaults params) true _
                  (normalized_exclude_authors params)) as [mn ->].
      unfold bind at 1, lift at 1. now apply subscript_after_failure.
    + unfold events_histo.
      destruct (bool_query_ok repo (set_params_defaults params) true _
                  (normalized_exclude_authors params)) as [mn ->].
      unfold bind at 1, lift at 1; cbn [getitem Dict.lookup set_params_defaults
                                          String.eqb Ascii.eqb Bool.eqb].
      unfold bind at 1, lift at 1. now apply subscript_after_failure.
    + unfold events_top_authors, _events_top.
      destruct (bool_query_ok repo (set_params_defaults params) true _
                  (normalized_exclude_authors params)) as [mn ->].
      unfold bind at 1, lift at 1; cbn [getitem Dict.lookup set_params_defaults
                                          String.eqb Ascii.eqb Bool.eqb].
      unfold bind at 1, lift at 1. now apply subscript_after_failure.
    + unfold change_merged_count_by_duration.
      edestruct (bool_query_ok repo) as [mn ->]; [reflexivity |].
      unfold bind at 1, lift at 1. now apply subscript_after_failure.
  - unfold count_events.
    destruct (bool_query_ok repo (set_params_defaults params) true _
                (normalized_exclude_authors params)) as [mn ->].
    unfold bind at 1, lift at 1.
    match goal with |- context [es_count es ?kw st] => destruct (H kw) as [e He] end.
    destruct (es_count es _ st) as [[a|e'] st']; [discriminate He | reflexivity].
Qed.

Lemma backend_failure_escapes_as_type_error_witness :
  fst (count_authors unreachable (VStr "monocle") (VStr "openstack/nova") [] tt)
  = Raise TypeError /\
  fst (count_events unreachable (VStr "monocle") (VStr "openstack/nova") [] tt)
  = Ok (VDict []).
Proof.
  split.
  - apply (proj1 (backend_failure_escapes_as_type_error unreachable
                    (VStr "monocle") (VStr "openstack/nova") [] tt)).
    intro kw; exists TransportError; reflexivity.
  - apply (proj2 (backend_failure_escapes_as_type_error unreachable
                    (VStr "monocle") (VStr "openstack/nova") [] tt)).
    intro kw; exists TransportError; reflexivity.
Defined.

(** ** Rankings *)

Lemma path3 (v x : pyval) (a b c : string) :
  path v [a; b; c] = Ok x ->
  exists u w, getitem v a = Ok u /\ getitem u b = Ok w /\ getitem w c = Ok x.
Proof.
  cbn [path]. intros H.
  destruct (getitem v a) as [u|]; [| discriminate].
  destruct (getitem u b) as [w|] eqn:E2; [| discriminate].
  destruct (getitem w c) as [y|] eqn:E3; [| discriminate].
  injection H as ->. now exists u, w.
Qed.

Section Ranking.
Context {St : Type}.
Variable es : Client St.
Variables index repo : pyval.

Lemma _events_top_zero_buckets (field : pyval) (params : dict)
  (size excl data : pyval) (st : St) :
  Dict.lookup params "size" = Some size ->
  Dict.lookup params "exclude_authors" = Some excl ->
  (forall kw, fst (es_search es kw st) = Ok data) ->
  path data ["aggregations"; "agg1"; "buckets"] = Ok (VList []) ->
  fst (_events_top es index repo field params st) = Ok no_ranking.
Proof.
  intros Hsize Hexcl Hsearch Hpath.
  unfold _events_top.
  destruct (bool_query_ok repo params true excl Hexcl) as [mn ->].
  unfold bind at 1, lift at 1; cbn [getitem]; rewrite Hsize.
  unfold bind at 1, lift at 1.
  unfold bind at 1, run_query, try_except.
  match goal with
  | |- context [es_search es ?kw st] =>
      pose proof (Hsearch kw) as Hkw; destruct (es_search es kw st) as [r st1]
  end.
  cbn [fst] in Hkw; subst r.
  destruct (path3 _ _ _ _ _ Hpath) as (aggs & agg1 & E1 & E2 & E3).
  cbn beta iota.
  unfold bind at 1, lift at 1; rewrite E1.
  unfold bind at 1, lift at 1; rewrite E2.
  unfold bind at 1, lift at 1; rewrite E3.
  reflexivity.
Qed.
End Ranking.

(** C10. When the search answers with a term ranking of zero buckets,
    [_events_top] returns [count_avg = 0] and [count_median = 0] with the
    empty bucket list, and so does every top-N metric built on it. *)
Theorem events_top_zero_buckets
  {St : Type} (es : Client St) (index repo data : pyval) (st : St) :
  (forall kw, fst (es_search es kw st) = Ok data) ->
  path data ["aggregations"; "agg1"; "buckets"] = Ok (VList []) ->
  (forall field params size excl,
     Dict.lookup params "size" = Some size ->
     Dict.lookup params "exclude_authors" = Some excl ->
     fst (_events_top es index repo field params st) = Ok no_ranking) /\
  (forall params,
     fst (events_top_authors es index repo params st) = Ok no_ranking /\
     fst (changes_top_approval es index repo params st) = Ok no_ranking /\
     fst (changes_top_commented es index repo params st) = Ok no_ranking /\
     fst (changes_top_reviewed es index repo params st) = Ok no_ranking /\
     fst (authors_top_reviewed es index repo params st) = Ok no_ranking /\
     fst (authors_top_commented es index repo params st) = Ok no_ranking).
Proof.
  intros Hsearch Hpath; split.
  - intros field params size excl Hsize Hexcl.
    now apply _events_top_zero_buckets with (size := size) (excl := excl) (data := data).
  - intros params; repeat split;
      (eapply _events_top_zero_buckets;
       [reflexivity | reflexivity | exact Hsearch | exact Hpath]).
Qed.

Lemma events_top_zero_buckets_witness :
  fst (changes_top_approval scripted (VStr "monocle") (VStr "openstack/nova")
         [("size", VInt 5)] (script [Ok empty_ranking_answer] 0))
  = Ok no_ranking.
Proof.
  apply (events_top_zero_buckets scripted (VStr "monocle")
           (VStr "openstack/nova") empty_ranking_answer
           (script [Ok empty_ranking_answer] 0)).
  - intro kw; reflexivity.
  - reflexivity.
Defined.

(** ** Closed ratios *)

Section Ratios.
Context {St : Type}.
Variable es : Client St.
Variables index repo : pyval.
Variable params : dict.
Variables created merged abandoned : pyval.
Variables st0 st1 st2 st3 : St.

Hypothesis count_created :
  count_events es index repo (etype_params params "ChangeCreatedEvent") st0
  = (Ok created, st1).
Hypothesis count_merged :
  count_events es index repo (etype_params params "ChangeMergedEvent") st1
  = (Ok merged, st2).
Hypothesis count_abandoned :
  count_events es index repo (etype_params params "ChangeAbandonedEvent") st2
  = (Ok abandoned, st3).

Lemma changes_closed_ratios_run :
  changes_closed_ratios es index repo params st0 =
  (match percentage merged created with
   | Raise e => Raise e
   | Ok r1 =>
       match percentage abandoned merged with
       | Raise e => Raise e
       | Ok r2 =>
           Ok (VDict [("merged/created_ratio", r1);
                      ("abandoned/created_ratio", r2)])
       end
   end, st3).
Proof.
  unfold changes_closed_ratios.
  unfold bind at 1; cbn [for_each].
  unfold bind at 1 2.
  change (Dict.set (fst (set_params_defaults params, @nil (string * pyval)))
            "etype" (VTuple [VStr "ChangeCreatedEvent"]))
    with (etype_params params "ChangeCreatedEvent").
  rewrite count_created. cbn [ret fst snd Dict.set].
  unfold bind at 1 2.
  change (Dict.set (etype_params params "ChangeCreatedEvent")
            "etype" (VTuple [VStr "ChangeMergedEvent"]))
    with (etype_params params "ChangeMergedEvent").
  rewrite count_merged. cbn [ret fst snd Dict.set String.eqb Ascii.eqb Bool.eqb].
  unfold bind at 1 2.
  change (Dict.set (etype_params params "ChangeMergedEvent")
            "etype" (VTuple [VStr "ChangeAbandonedEvent"]))
    with (etype_params params "ChangeAbandonedEvent").
  rewrite count_abandoned. cbn [ret fst snd Dict.set String.eqb Ascii.eqb Bool.eqb].
  unfold bind, lift, ret;
    cbn [getitem Dict.lookup String.eqb Ascii.eqb Bool.eqb fst snd].
  destruct (percentage merged created) as [r1|e1]; [| reflexivity].
  cbn [getitem Dict.lookup Dict.set String.eqb Ascii.eqb Bool.eqb fst snd].
  destruct (percentage abandoned merged) as [r2|e2]; reflexivity.
Qed.
End Ratios.

Lemma percentage_zero_denominator (a : pyval) :
  exists e, percentage a (VInt 0) = Raise e.
Proof.
  unfold percentage, py_truediv.
  destruct a; cbn; eauto.
Qed.

(** C2. With 100 created, 40 merged and 10 abandoned changes,
    [changes_closed_ratios] returns [merged/created_ratio = 40.0], and the
    entry it names [abandoned/created_ratio] is 25.0: the code divides the
    abandoned count by the merged count, not by the created count (which
    would give 10.0). *)
Theorem changes_closed_ratios_100_40_10
  {St : Type} (es : Client St) (index repo : pyval) (params : dict)
  (st0 st1 st2 st3 : St) :
  count_events es index repo (etype_params params "ChangeCreatedEvent") st0
  = (Ok (VInt 100), st1) ->
  count_events es index repo (etype_params params "ChangeMergedEvent") st1
  = (Ok (VInt 40), st2) ->
  count_events es index repo (etype_params params "ChangeAbandonedEvent") st2
  = (Ok (VInt 10), st3) ->
  changes_closed_ratios es index repo params st0
  = (Ok (VDict [("merged/created_ratio", VFloat (b64_of_Z 40));
                ("abandoned/created_ratio", VFloat (b64_of_Z 25))]), st3) /\
  percentage (VInt 10) (VInt 40) = Ok (VFloat (b64_of_Z 25)) /\
  percentage (VInt 10) (VInt 100) = Ok (VFloat (b64_of_Z 10)).
Proof.
  intros Hc Hm Ha.
  rewrite (changes_closed_ratios_run es index repo params _ _ _ _ _ _ _ Hc Hm Ha).
  repeat split; vm_compute; reflexivity.
Qed.

Lemma changes_closed_ratios_100_40_10_witness :
  fst (changes_closed_ratios scripted (VStr "monocle") (VStr "openstack/nova") []
         (script [count_answer 100; count_answer 40; count_answer 10] 0))
  = Ok (VDict [("merged/created_ratio", VFloat (b64_of_Z 40));
               ("abandoned/created_ratio", VFloat (b64_of_Z 25))]).
Proof.
  pose (i := VStr "monocle"). pose (r := VStr "openstack/nova").
  pose (s0 := script [count_answer 100; count_answer 40; count_answer 10] 0).
  pose (s1 := snd (count_events scripted i r
                     (etype_params [] "ChangeCreatedEvent") s0)).
  pose (s2 := snd (count_events scripted i r
                     (etype_params [] "ChangeMergedEvent") s1)).
  pose (s3 := snd (count_events scripted i r
                     (etype_params [] "ChangeAbandonedEvent") s2)).
  refine (f_equal fst
            (proj1 (changes_closed_ratios_100_40_10 scripted i r [] s0 s1 s2 s3
                      _ _ _)));
    vm_compute; reflexivity.
Defined.

(** C3. [changes_closed_ratios] raises instead of returning whenever the
    count of [ChangeCreatedEvent] is 0 or the count of [ChangeMergedEvent]
    is 0. *)
Theorem changes_closed_ratios_raises_on_zero
  {St : Type} (es : Client St) (index repo : pyval) (params : dict)
  (created merged abandoned : pyval) (st0 st1 st2 st3 : St) :
  count_events es index repo (etype_params params "ChangeCreatedEvent") st0
  = (Ok created, st1) ->
  count_events es index repo (etype_params params "ChangeMergedEvent") st1
  = (Ok merged, st2) ->
  count_events es index repo (etype_params params "ChangeAbandonedEvent") st2
  = (Ok abandoned, st3) ->
  created = VInt 0 \/ merged = VInt 0 ->
  exists e, changes_closed_ratios es index repo params st0 = (Raise e, st3).
Proof.
  intros Hc Hm Ha Hzero.
  rewrite (changes_closed_ratios_run es index repo params _ _ _ _ _ _ _ Hc Hm Ha).
  destruct Hzero as [-> | ->].
  - destruct (percentage_zero_denominator merged) as [e ->]. now exists e.
  - destruct (percentage (VInt 0) created) as [r1|e1]; [| now exists e1].
    destruct (percentage_zero_denominator abandoned) as [e ->]. now exists e.
Qed.

Lemma changes_closed_ratios_raises_on_zero_witness :
  (exists e,
     fst (changes_closed_ratios scripted (VStr "monocle") (VStr "openstack/nova") []
            (script [count_answer 0; count_answer 0; count_answer 0] 0))
     = Raise e) /\
  (exists e,
     fst (changes_closed_ratios scripted (VStr "monocle") (VStr "openstack/nova") []
            (script [count_answer 7; count_answer 0; count_answer 2] 0))
     = Raise e).
Proof.
  pose (i := VStr "monocle"). pose (r := VStr "openstack/nova").
  split.
  - pose (s0 := script [count_answer 0; count_answer 0; count_answer 0] 0).
    pose (s1 := snd (count_events scripted i r
                       (etype_params [] "ChangeCreatedEvent") s0)).
    pose (s2 := snd (count_events scripted i r
                       (etype_params [] "ChangeMergedEvent") s1)).
    pose (s3 := snd (count_events scripted i r
                       (etype_params [] "ChangeAbandonedEvent") s2)).
    assert (H1 : count_events scripted i r (etype_params [] "ChangeCreatedEvent") s0
                 = (Ok (VInt 0), s1)) by (vm_compute; reflexivity).
    assert (H2 : count_events scripted i r (etype_params [] "ChangeMergedEvent") s1
                 = (Ok (VInt 0), s2)) by (vm_compute; reflexivity).
    assert (H3 : count_events scripted i r (etype_params [] "ChangeAbandonedEvent") s2
                 = (Ok (VInt 0), s3)) by (vm_compute; reflexivity).
    destruct (changes_closed_ratios_raises_on_zero scripted i r []
                (VInt 0) (VInt 0) (VInt 0) s0 s1 s2 s3 H1 H2 H3
                (or_introl eq_refl)) as [e He].
    exists e. exact (f_equal fst He).
  - pose (s0 := script [count_answer 7; count_answer 0; count_answer 2] 0).
    pose (s1 := snd (count_events scripted i r
                       (etype_params [] "ChangeCreatedEvent") s0)).
    pose (s2 := snd (count_events scripted i r
                       (etype_params [] "ChangeMergedEvent") s1)).
    pose (s3 := snd (count_events scripted i r
                       (etype_params [] "ChangeAbandonedEvent") s2)).
    assert (H1 : count_events scripted i r (etype_params [] "ChangeCreatedEvent") s0
                 = (Ok (VInt 7), s1)) by (vm_compute; reflexivity).
    assert (H2 : count_events scripted i r (etype_params [] "ChangeMergedEvent") s1
                 = (Ok (VInt 0), s2)) by (vm_compute; reflexivity).
    assert (H3 : count_events scripted i r (etype_params [] "ChangeAbandonedEvent") s2
                 = (Ok (VInt 2), s3)) by (vm_compute; reflexivity).
    destruct (changes_closed_ratios_raises_on_zero scripted i r []
                (VInt 7) (VInt 0) (VInt 2) s0 s1 s2 s3 H1 H2 H3
                (or_intror eq_refl)) as [e He].
    exists e. exact (f_equal fst He).
Defined.

(** ** Duration buckets *)

Lemma buckets_counting_eq (d : Z) :
  buckets_counting d =
  [ d <? 86400;
    (86401 <=? d) && (d <? 604800);
    (604801 <=? d) && (d <? 2678400);
    (2678401 <=? d) && true ].
Proof. reflexivity. Qed.

(** C7. The four ranges sent by [change_merged_count_by_duration] are
    pairwise disjoint, and a duration of 86401 falls in the second one; but
    with the upper end of a range excluded, a duration of 86400 is counted
    in no bucket, so the ranges do not cover the durations from 0 on: they
    miss exactly 86400, 604800 and 2678400. *)
Theorem duration_ranges_miss_their_upper_ends :
  (forall index repo params answers now,
     map (fun kw => path kw ["body"; "aggs"; "agg1"; "range"; "ranges"])
       (calls (snd (change_merged_count_by_duration scripted index repo params
                      (script answers now))))
     = [Ok (VList duration_ranges)]) /\
  buckets_counting 86400 = [false; false; false; false] /\
  buckets_counting 86401 = [false; true; false; false] /\
  (forall d, (List.length (filter (fun b => b) (buckets_counting d)) <= 1)%nat) /\
  (forall d, 0 <= d ->
     (buckets_counting d = [false; false; false; false]
      <-> d = 86400 \/ d = 604800 \/ d = 2678400)).
Proof.
  split; [| split; [reflexivity | split; [reflexivity | split]]].
  - intros index repo params answers now.
    unfold change_merged_count_by_duration.
    edestruct (bool_query_ok repo) as [mn ->]; [reflexivity |].
    unfold bind at 1, lift at 1.
    unfold bind at 1, run_query, try_except, scripted, es_search, serve, script;
      cbn [pending calls clock app].
    destruct answers as [|[a|e] rest]; cbn [calls app]; run_pure.
  - intro d. rewrite buckets_counting_eq.
    destruct (Z.ltb_spec d 86400), (Z.leb_spec 86401 d), (Z.ltb_spec d 604800),
      (Z.leb_spec 604801 d), (Z.ltb_spec d 2678400), (Z.leb_spec 2678401 d);
      cbn; lia.
  - intros d Hd. rewrite buckets_counting_eq.
    destruct (Z.ltb_spec d 86400), (Z.leb_spec 86401 d), (Z.ltb_spec d 604800),
      (Z.leb_spec 604801 d), (Z.ltb_spec d 2678400), (Z.leb_spec 2678401 d);
      cbn; split; intros H'; try discriminate H'; try reflexivity; lia.
Qed.

(** ** First event on changes *)

(** *** Stable insertion sort *)

Section SortFacts.
Context {A : Type}.
Variable before : A -> A -> bool.
Hypothesis before_total : forall x y, before x y = false -> before y x = true.
Hypothesis before_trans :
  forall x y z, before x y = true -> before y z = true -> before x z = true.

Lemma insert_sorted_perm (x : A) (l : list A) :
  Permutation (x :: l) (insert_sorted before x l).
Proof.
  induction l as [|y l IH]; cbn; [reflexivity |].
  destruct (before x y); [reflexivity |].
  rewrite perm_swap. now apply perm_skip.
Qed.

Lemma sorted_perm (l : list A) : Permutation l (sorted before l).
Proof.
  induction l as [|x l IH]; cbn; [reflexivity |].
  rewrite <- insert_sorted_perm. now apply perm_skip.
Qed.

Lemma insert_sorted_ordered (x : A) (l : list A) :
  StronglySorted (fun a b => before a b = true) l ->
  StronglySorted (fun a b => before a b = true) (insert_sorted before x l).
Proof.
  induction l as [|y l IH]; cbn; intros Hs.
  - repeat constructor.
  - inversion Hs as [|? ? Hl Hy]; subst.
    destruct (before x y) eqn:E.
    + constructor; [assumption |].
      constructor; [assumption |].
      eapply Forall_impl; [| exact Hy]. intros z Hz. now apply before_trans with y.
    + constructor; [now apply IH |].
      eapply Permutation_Forall; [apply insert_sorted_perm |].
      constructor; [now apply before_total | assumption].
Qed.

Lemma sorted_ordered (l : list A) :
  StronglySorted (fun a b => before a b = true) (sorted before l).
Proof.
  induction l as [|x l IH]; cbn; [constructor | now apply insert_sorted_ordered].
Qed.
End SortFacts.

Lemma in_firstn {A : Type} (n : nat) (l : list A) (y : A) :
  In y (firstn n l) -> In y l.
Proof.
  revert n; induction l as [|x l IH]; intros [|n]; cbn; try tauto.
  intros [-> | H]; [now left | right; now apply (IH n)].
Qed.

Lemma ordered_impl {A : Type} (R S : A -> A -> Prop) (l : list A) :
  (forall x y, R x y -> S x y) -> StronglySorted R l -> StronglySorted S l.
Proof.
  intros HRS; induction 1 as [|x l _ IH Hx]; constructor; [assumption |].
  eapply Forall_impl; [| exact Hx]. intros y; apply HRS.
Qed.

Lemma firstn_ordered {A : Type} (R : A -> A -> Prop) (n : nat) (l : list A) :
  StronglySorted R l -> StronglySorted R (firstn n l).
Proof.
  revert n; induction l as [|x l IH]; intros [|n] Hs; cbn; try constructor.
  - inversion Hs; subst. now apply IH.
  - inversion Hs as [|? ? _ Hx]; subst.
    rewrite Forall_forall in *. intros y Hy. apply Hx.
    eapply in_firstn. exact Hy.
Qed.

Lemma sorted_descending {K : Type} (l : list (K * Z)) :
  descending (sorted (fun x y : K * Z => snd y <=? snd x) l).
Proof.
  unfold descending.
  eapply ordered_impl;
    [| apply (sorted_ordered (fun x y : K * Z => snd y <=? snd x))].
  - intros x y H. now apply Z.leb_le.
  - intros x y H. apply Z.leb_le. apply Z.leb_gt in H. lia.
  - intros x y z H1 H2. apply Z.leb_le. apply Z.leb_le in H1, H2. lia.
Qed.

Lemma first_event_result_shape {St : Type} (es : Client St)
  (index repo : pyval) (params : dict) (st st' : St) (v : pyval) :
  _first_event_on_changes es index repo params st = (Ok v, st') ->
  exists avg tops,
    v = VDict [("first_event_delay_avg", VInt avg);
               ("top_authors", VList (map ranking_entry tops))] /\
    (List.length tops <= 10)%nat /\ descending tops.
Proof.
  unfold _first_event_on_changes. intros H.
  unfold bind at 1 in H.
  destruct (_scan_events _ _ _ _ _) as [[events|] st1]; [| discriminate H].
  unfold bind at 1, lift at 1 in H.
  destruct (map_res keyfunc events) as [keyed|]; [| discriminate H].
  unfold bind at 1 in H.
  destruct (for_each _ _ _ _) as [[groups|] st2]; [| discriminate H].
  unfold bind at 1, lift at 1 in H.
  destruct (for_each_res tally _ _) as [totals|]; [| discriminate H].
  unfold bind at 1, lift at 1 in H.
  destruct (int_truediv _ _) as [q|]; [| discriminate H].
  unfold bind at 1, lift at 1 in H.
  destruct (int_of_float q) as [avg|]; [| discriminate H].
  unfold ret in H.
  remember (firstn 10 (sorted (fun x y : string * Z => snd y <=? snd x)
                         (snd totals))) as tops eqn:Etops.
  injection H as <- <-.
  exists avg, tops. split; [reflexivity | subst tops; split].
  - apply firstn_le_length.
  - apply firstn_ordered, sorted_descending.
Qed.

(** C9. [_first_event_on_changes] adds up [delta.seconds], the seconds of
    the delay once whole days are taken out, so [first_event_delay_avg] is
    not the mean elapsed time: for a single change commented twenty-five
    hours (90000 seconds) after its creation it is 3600.  For a delay under
    one day the two agree (first comment after 3600 seconds, a second one
    after 7200).  Whenever the function returns, [top_authors] has at most
    ten entries in descending order of frequency. *)
Theorem first_event_delay_drops_whole_days :
  (forall index repo params,
     fst (_first_event_on_changes scripted index repo params late_comment)
     = Ok (VDict [("first_event_delay_avg", VInt 3600);
                  ("top_authors", VList [ranking_entry ("alice", 1)])])) /\
  (exists created commented,
     Datetime.parse "2020-01-01T00:00:00Z" = Some created /\
     Datetime.parse "2020-01-02T01:00:00Z" = Some commented /\
     Datetime.total_seconds (commented - created) = 90000 /\
     Datetime.seconds (commented - created) = 3600) /\
  (forall index repo params,
     fst (_first_event_on_changes scripted index repo params
            (script
               [Ok (VList [hit "openstack/nova-1" "2020-01-01T02:00:00Z"
                             "2020-01-01T00:00:00Z" "bob";
                           hit "openstack/nova-1" "2020-01-01T01:00:00Z"
                             "2020-01-01T00:00:00Z" "alice"])]
               1609459200000000))
     = Ok (VDict [("first_event_delay_avg", VInt 3600);
                  ("top_authors", VList [ranking_entry ("alice", 1)])])) /\
  (forall St (es : Client St) index repo params st st' v,
     _first_event_on_changes es index repo params st = (Ok v, st') ->
     exists avg tops,
       v = VDict [("first_event_delay_avg", VInt avg);
                  ("top_authors", VList (map ranking_entry tops))] /\
       (List.length tops <= 10)%nat /\ descending tops).
Proof.
  split; [| split; [| split]].
  - intros index repo params. unfold _first_event_on_changes, _scan_events.
    edestruct (bool_query_ok repo) as [mn ->]; [reflexivity |].
    reflexivity.
  - eexists; eexists. repeat split; reflexivity.
  - intros index repo params. unfold _first_event_on_changes, _scan_events.
    edestruct (bool_query_ok repo) as [mn ->]; [reflexivity |].
    reflexivity.
  - intros St es index repo params st st' v. apply first_event_result_shape.
Qed.

(** ** Peer exchange strength *)

(** *** Pair keys *)

Lemma ltb_irrefl (a : string) : String.ltb a a = false.
Proof.
  unfold String.ltb. pose proof (String.compare_antisym a a) as H.
  destruct (String.compare a a); try reflexivity; discriminate H.
Qed.

Lemma ltb_asym (a b : string) : String.ltb a b = true -> String.ltb b a = false.
Proof.
  unfold String.ltb. rewrite (String.compare_antisym b a).
  destruct (String.compare a b); cbn; congruence.
Qed.

Lemma ltb_total (a b : string) :
  a <> b -> String.ltb a b = false -> String.ltb b a = true.
Proof.
  unfold String.ltb. rewrite (String.compare_antisym b a).
  destruct (String.compare a b) eqn:E; cbn; try congruence.
  intros Hne _. now apply String.compare_eq_iff in E.
Qed.

Lemma sorted_pair_sym (a b : string) : sorted_pair a b = sorted_pair b a.
Proof.
  unfold sorted_pair.
  destruct (String.eqb_spec a b) as [-> | Hne]; [reflexivity |].
  destruct (String.ltb b a) eqn:E.
  - now rewrite (ltb_asym _ _ E).
  - now rewrite (ltb_total _ _ (not_eq_sym Hne) E).
Qed.

Lemma sorted_pair_ordered (a b : string) :
  a <> b -> String.ltb (fst (sorted_pair a b)) (snd (sorted_pair a b)) = true.
Proof.
  intros Hne. unfold sorted_pair.
  destruct (String.ltb b a) eqn:E; cbn; [assumption |].
  now apply ltb_total; [apply not_eq_sym |].
Qed.

Lemma peers_id_eqb_eq (p q : peers_id) : peers_id_eqb p q = true <-> p = q.
Proof.
  destruct p as [a b], q as [c d]; unfold peers_id_eqb; cbn.
  rewrite andb_true_iff, !String.eqb_eq. split.
  - now intros [-> ->].
  - now intros [= -> ->].
Qed.

Lemma peers_id_eqb_refl (p : peers_id) : peers_id_eqb p p = true.
Proof. now apply peers_id_eqb_eq. Qed.

(** Two sorted pairs are the same key exactly when they join the same two
    people. *)
Lemma sorted_pair_same (a k x y : string) :
  sorted_pair a k = sorted_pair x y <->
  (a = x /\ k = y) \/ (a = y /\ k = x).
Proof.
  split.
  - unfold sorted_pair.
    destruct (String.ltb k a), (String.ltb y x); intros [= -> ->]; tauto.
  - intros [[-> ->] | [-> ->]]; [reflexivity | apply sorted_pair_sym].
Qed.

(** *** Accumulation *)

Lemma weight_add_strength (d : list (peers_id * Z)) (k p : peers_id) (n : Z) :
  weight (add_strength d k n) p
  = weight d p + (if peers_id_eqb k p then n else 0).
Proof.
  induction d as [|[k' v] d IH]; cbn.
  - destruct (peers_id_eqb k p); lia.
  - destruct (peers_id_eqb k' k) eqn:E; cbn.
    + apply peers_id_eqb_eq in E; subst k'.
      destruct (peers_id_eqb k p); lia.
    + rewrite IH. lia.
Qed.

Lemma add_strength_keys (d : list (peers_id * Z)) (k q : peers_id) (n : Z) :
  In q (map fst (add_strength d k n)) -> In q (map fst d) \/ q = k.
Proof.
  induction d as [|[k' v] d IH]; cbn.
  - intros [<- | []]; now right.
  - destruct (peers_id_eqb k' k) eqn:E; cbn.
    + intros [<- | H]; [left; now left | left; now right].
    + intros [<- | H]; [left; now left |].
      destruct (IH H) as [H' | ->]; [left; now right | now right].
Qed.

Lemma add_strength_nodup (d : list (peers_id * Z)) (k : peers_id) (n : Z) :
  NoDup (map fst d) -> NoDup (map fst (add_strength d k n)).
Proof.
  induction d as [|[k' v] d IH]; cbn; intros Hnd.
  - constructor; [intros [] | constructor].
  - inversion Hnd as [|? ? Hnot Hnd']; subst.
    destruct (peers_id_eqb k' k) eqn:E; cbn.
    + now constructor.
    + constructor; [| now apply IH].
      intros Hin. destruct (add_strength_keys _ _ _ _ Hin) as [H | ->].
      * now apply Hnot.
      * rewrite peers_id_eqb_refl in E. discriminate E.
Qed.

Lemma peers_step_spec (author bucket : pyval) (acc acc' : list (peers_id * Z)) :
  peers_step author acc bucket = Ok acc' ->
  (well_keyed acc -> well_keyed acc') /\
  (forall x y, x <> y ->
     weight acc' (sorted_pair x y)
     = weight acc (sorted_pair x y)
       + sent author bucket x y + sent author bucket y x).
Proof.
  unfold peers_step, sent.
  destruct (getitem bucket "key") as [key|]; [| discriminate].
  destruct key as [| | | |k| | |]; cbn [as_str]; try discriminate;
    destruct author as [| | | |a| | |]; cbn [as_str]; try discriminate.
  destruct (String.eqb_spec k a) as [-> | Hka].
  - intros [= <-]. split; [tauto |].
    intros x y Hxy.
    destruct (getitem bucket "doc_count") as [c|]; [| lia].
    destruct (String.eqb_spec a x) as [E1 | ?], (String.eqb_spec a y) as [E2 | ?];
      cbn; try lia. now contradiction Hxy; rewrite <- E1, <- E2.
  - destruct (getitem bucket "doc_count") as [c|]; [| discriminate].
    destruct (as_int c) as [n|]; [| discriminate].
    intros [= <-]. split.
    + intros [Hord Hnd]. split; [| now apply add_strength_nodup].
      intros p Hin. destruct (add_strength_keys _ _ _ _ Hin) as [H | ->].
      * now apply Hord.
      * apply sorted_pair_ordered. now apply not_eq_sym.
    + intros x y Hxy. rewrite weight_add_strength.
      destruct (peers_id_eqb (sorted_pair a k) (sorted_pair x y)) eqn:E.
      * apply peers_id_eqb_eq, sorted_pair_same in E.
        destruct E as [[-> ->] | [-> ->]].
        -- rewrite !String.eqb_refl; cbn.
           destruct (String.eqb_spec x y), (String.eqb_spec y x);
             cbn; try lia; congruence.
        -- rewrite !String.eqb_refl; cbn.
           destruct (String.eqb_spec x y), (String.eqb_spec y x);
             cbn; try lia; congruence.
      * assert (Hno : ~ ((a = x /\ k = y) \/ (a = y /\ k = x))).
        { intros H; apply sorted_pair_same, peers_id_eqb_eq in H. congruence. }
        destruct (String.eqb_spec a x), (String.eqb_spec k y),
          (String.eqb_spec a y), (String.eqb_spec k x); cbn; try lia; tauto.
Qed.

Lemma peers_inner_spec (author : pyval) (bs : list pyval)
  (acc acc' : list (peers_id * Z)) :
  for_each_res (peers_step author) bs acc = Ok acc' ->
  (well_keyed acc -> well_keyed acc') /\
  (forall x y, x <> y ->
     weight acc' (sorted_pair x y)
     = weight acc (sorted_pair x y)
       + directional [(author, bs)] x y + directional [(author, bs)] y x).
Proof.
  revert acc; induction bs as [|bucket bs IH]; intros acc; cbn.
  - intros [= <-]. split; [tauto | intros; lia].
  - destruct (peers_step author acc bucket) as [acc1|] eqn:E; [| discriminate].
    intros H. destruct (peers_step_spec _ _ _ _ E) as [Hk Hw].
    destruct (IH _ H) as [Hk' Hw']. split; [tauto |].
    intros x y Hxy. rewrite (Hw' x y Hxy), (Hw x y Hxy). cbn. ring.
Qed.

Lemma directional_cons (r : pyval * list pyval) (rk : list (pyval * list pyval))
  (a b : string) :
  directional (r :: rk) a b = directional [r] a b + directional rk a b.
Proof. unfold directional; cbn [fold_right]. ring. Qed.

Section PeersLoop.
Context {St : Type}.
Variable es : Client St.
Variables index repo : pyval.

Lemma peers_outer_spec (authors : list pyval) :
  forall (p p' : dict) (acc acc' : list (peers_id * Z)) (st st' : St),
    for_each (peers_turn es index repo) authors (p, acc) st
    = (Ok (p', acc'), st') ->
    exists rk,
      partner_rankings es index repo p authors rk st st' /\
      (well_keyed acc -> well_keyed acc') /\
      (forall x y, x <> y ->
         weight acc' (sorted_pair x y)
         = weight acc (sorted_pair x y) + directional rk x y + directional rk y x).
Proof.
  induction authors as [|author authors IH]; intros p p' acc acc' st st'; cbn.
  - unfold ret. intros [= <- <- <-]. exists []. cbn.
    split; [reflexivity | split; [tauto | intros; lia]].
  - unfold bind at 1, peers_turn at 1. cbn [fst snd].
    unfold bind at 1.
    destruct (_events_top es index repo (VStr "on_author")
                (Dict.set p "author" author) st) as [[top|] st1] eqn:Etop;
      [| discriminate].
    unfold bind at 1, lift at 1.
    destruct (getitem top "buckets") as [buckets|] eqn:Eb; [| discriminate].
    unfold bind at 1, lift at 1.
    destruct (py_iter buckets) as [bs|] eqn:Ei; [| discriminate].
    unfold bind at 1, lift at 1.
    destruct (for_each_res (peers_step author) bs acc) as [acc1|] eqn:Einner;
      [| discriminate].
    unfold ret at 1. intros Hrest.
    destruct (IH _ _ _ _ _ _ Hrest) as (rk & Hrk & Hk & Hw).
    destruct (peers_inner_spec _ _ _ _ Einner) as [Hk1 Hw1].
    exists ((author, bs) :: rk). split; [| split].
    + cbn. split; [reflexivity |]. now exists top, buckets, st1.
    + tauto.
    + intros x y Hxy.
      rewrite (Hw x y Hxy), (Hw1 x y Hxy),
        (directional_cons (author, bs) rk x y),
        (directional_cons (author, bs) rk y x). lia.
Qed.
End PeersLoop.

Lemma weight_perm (l l' : list (peers_id * Z)) (p : peers_id) :
  Permutation l l' -> weight l p = weight l' p.
Proof.
  induction 1 as [| [q w] l l' _ IH | [q w] [q' w'] l | l l' l'' _ IH1 _ IH2];
    cbn; lia.
Qed.

(** C8. Whenever [peers_exchange_strength] returns, its edges come from
    the partner rankings fetched from the backend, one per top author, and:
    no edge joins a person to itself (its two ends are in strictly
    increasing order, and each pair is recorded once); the edges are in
    descending order of weight; and the weight recorded under the sorted
    pair key of two distinct people [a] and [b] is the sum of the
    directional counts from [a] to [b] and from [b] to [a], the same for
    [(b, a)]. *)
Theorem peers_exchange_strength_edges
  {St : Type} (es : Client St) (index repo : pyval) (params : dict)
  (st st' : St) (edges : list (peers_id * Z)) :
  peers_exchange_strength es index repo params st = (Ok edges, st') ->
  exists rankings,
    fetched es index repo params rankings st st' /\
    (forall a b w, In ((a, b), w) edges -> a <> b /\ String.ltb a b = true) /\
    NoDup (map fst edges) /\
    descending edges /\
    (forall a b, a <> b ->
       weight edges (sorted_pair a b)
       = directional rankings a b + directional rankings b a /\
       weight edges (sorted_pair b a) = weight edges (sorted_pair a b)).
Proof.
  unfold peers_exchange_strength. fold (peers_params params).
  unfold bind at 1.
  destruct (_events_top es index repo (VStr "author") (peers_params params) st)
    as [[top|] st1] eqn:Etop; [| discriminate].
  unfold bind at 1, lift at 1.
  destruct (getitem top "buckets") as [buckets|] eqn:Eb; [| discriminate].
  unfold bind at 1, lift at 1.
  destruct (py_iter buckets) as [bs|] eqn:Ei; [| discriminate].
  unfold bind at 1, lift at 1.
  destruct (map_res _ bs) as [authors|] eqn:Ea; [| discriminate].
  unfold bind at 1.
  destruct (for_each _ authors _ st1) as [[[p' acc']|] st2] eqn:Eloop;
    [| discriminate].
  unfold ret. cbn [snd]. intros [= <- <-].
  destruct (peers_outer_spec es index repo _ _ _ _ _ _ _ Eloop)
    as (rk & Hrk & Hk & Hw).
  destruct Hk as [Hord Hnd].
  { split; [intros p [] | constructor]. }
  pose proof (sorted_perm (fun x y : peers_id * Z => snd y <=? snd x) acc')
    as Hperm.
  exists rk. split; [| split; [| split; [| split]]].
  - now exists top, buckets, bs, authors, st1.
  - intros a b w Hin.
    assert (Hab : String.ltb a b = true).
    { apply (Hord (a, b)).
      apply (Permutation_in _ (Permutation_sym (Permutation_map fst Hperm))).
      now apply (in_map fst) in Hin. }
    split; [| exact Hab].
    intros ->. rewrite ltb_irrefl in Hab. discriminate Hab.
  - eapply Permutation_NoDup; [apply (Permutation_map fst Hperm) | exact Hnd].
  - apply sorted_descending.
  - intros a b Hab.
    rewrite (sorted_pair_sym b a), <- (weight_perm _ _ _ Hperm), (Hw a b Hab).
    cbn. split; [lia | reflexivity].
Qed.

Lemma peers_exchange_strength_edges_witness :
  let run :=
    peers_exchange_strength scripted (VStr "monocle") (VStr "openstack/nova") []
      review_exchange in
  fst run = Ok [(("alice", "bob"), 7); (("alice", "carol"), 1)] /\
  exists rankings,
    fetched scripted (VStr "monocle") (VStr "openstack/nova") [] rankings
      review_exchange (snd run) /\
    weight [(("alice", "bob"), 7); (("alice", "carol"), 1)]
      (sorted_pair "bob" "alice")
    = directional rankings "bob" "alice" + directional rankings "alice" "bob".
Proof.
  intro run.
  assert (Hrun : peers_exchange_strength scripted (VStr "monocle")
                   (VStr "openstack/nova") [] review_exchange
                 = (Ok [(("alice", "bob"), 7); (("alice", "carol"), 1)], snd run))
    by (vm_compute; reflexivity).
  split; [exact (f_equal fst Hrun) |].
  destruct (peers_exchange_strength_edges _ _ _ _ _ _ _ Hrun)
    as (rankings & Hfetched & _ & _ & _ & Hweight).
  exists rankings. split; [exact Hfetched |].
  apply (Hweight "bob" "alice"). discriminate.
Defined.

Lemma duration_ranges_miss_their_upper_ends_witness :
  buckets_counting 604800 = [false; false; false; false].
Proof.
  apply (proj2 (proj2 (proj2 (proj2 duration_ranges_miss_their_upper_ends)))
           604800); [lia | right; left; reflexivity].
Defined.

Lemma first_event_delay_drops_whole_days_witness :
  exists avg tops,
    fst (_first_event_on_changes scripted (VStr "monocle")
           (VStr "openstack/nova") [] late_comment)
    = Ok (VDict [("first_event_delay_avg", VInt avg);
                 ("top_authors", VList (map ranking_entry tops))]) /\
    (List.length tops <= 10)%nat /\ descending tops.
Proof.
  pose (run := _first_event_on_changes scripted (VStr "monocle")
                 (VStr "openstack/nova") [] late_comment).
  assert (Hrun : run
                 = (Ok (VDict [("first_event_delay_avg", VInt 3600);
                               ("top_authors", VList [ranking_entry ("alice", 1)])]),
                    snd run))
    by (vm_compute; reflexivity).
  destruct (proj2 (proj2 (proj2 first_event_delay_drops_whole_days))
              _ _ _ _ _ _ _ _ Hrun) as (avg & tops & Hv & Hlen & Hdesc).
  exists avg, tops. split; [| now split].
  change (fst run = Ok (VDict [("first_event_delay_avg", VInt avg);
                               ("top_authors", VList (map ranking_entry tops))])).
  rewrite Hrun. cbn [fst]. now f_equal.
Defined.

(** * Further properties *)

(** ** Dictionaries *)

Lemma lookup_set_same {V : Type} (d : list (string * V)) (k : string) (v : V) :
  Dict.lookup (Dict.set d k v) k = Some v.
Proof.
  induction d as [|[k' v'] d IH]; cbn.
  - now rewrite String.eqb_refl.
  - destruct (String.eqb k' k) eqn:E; cbn; rewrite E; [reflexivity | exact IH].
Qed.

Lemma lookup_set_other {V : Type} (d : list (string * V)) (k k' : string) (v : V) :
  k <> k' -> Dict.lookup (Dict.set d k v) k' = Dict.lookup d k'.
Proof.
  intros Hne. induction d as [|[k0 v0] d IH]; cbn.
  - apply String.eqb_neq in Hne. now rewrite Hne.
  - destruct (String.eqb_spec k0 k) as [-> | H0]; cbn.
    + apply String.eqb_neq in Hne. now rewrite Hne.
    + now rewrite IH.
Qed.

Lemma get_set_other (d : dict) (k k' : string) (v : pyval) :
  k <> k' -> get (Dict.set d k v) k' = get d k'.
Proof. intros H. unfold get. now rewrite lookup_set_other. Qed.

(** ** Parameter normalizer *)

(** X1. Normalizing twice is normalizing once, and the result always has
    the same eleven keys in the same order. *)
Theorem set_params_defaults_idempotent (params : dict) :
  set_params_defaults (set_params_defaults params) = set_params_defaults params /\
  map fst (set_params_defaults params) = normalized_keys.
Proof. split; reflexivity. Qed.

(** X2. A default is applied only when the key is absent: [interval],
    [size] and [exclude_authors] get ["3h"], [10] and [[]] when the caller
    left them out, while a value the caller gave, [None] included, is kept
    as it is. *)
Theorem set_params_defaults_defaults (params : dict) (k : string) (v : pyval) :
  (k = "interval" \/ k = "size" \/ k = "exclude_authors") ->
  (Dict.lookup params k = Some v ->
   Dict.lookup (set_params_defaults params) k = Some v) /\
  (Dict.lookup params k = None ->
   Dict.lookup (set_params_defaults params) k =
   Some (if String.eqb k "interval" then VStr "3h"
         else if String.eqb k "size" then VInt 10 else VList [])).
Proof.
  intros [-> | [-> | ->]]; split; intros H; cbn; unfold get_default;
    now rewrite H.
Qed.

Lemma set_params_defaults_defaults_witness :
  Dict.lookup (set_params_defaults [("size", VNone)]) "size" = Some VNone /\
  Dict.lookup (set_params_defaults [("gte", VInt 5)]) "size" = Some (VInt 10).
Proof.
  split.
  - apply (proj1 (set_params_defaults_defaults [("size", VNone)] "size" VNone
                    (or_intror (or_introl eq_refl)))).
    reflexivity.
  - apply (proj2 (set_params_defaults_defaults [("gte", VInt 5)] "size" VNone
                    (or_intror (or_introl eq_refl)))).
    reflexivity.
Defined.

(** ** Filter builder *)

(** X3. The optional predicates of the filter: the exact-match predicate
    on [author], [state] or [approval] is there exactly when the parameter
    is truthy, and then holds the parameter; the same for the inclusion
    predicate on the event type, whose set is the parameter (a string
    split by [list]).  The filter always starts with the repository
    pattern. *)
Theorem generate_filter_optional_predicates (repo : pyval) (params : dict) :
  (forall k, k = "author" \/ k = "state" \/ k = "approval" ->
     predicates_on "term" k (generate_filter repo params)
     = if truthy (get params k) then [get params k] else []) /\
  predicates_on "terms" "type" (generate_filter repo params)
  = (if truthy (listed_etype params) then [listed_etype params] else []) /\
  predicates_on "regexp" "repository_fullname" (generate_filter repo params)
  = [VDict [("value", repo)]].
Proof.
  rewrite generate_filter_shape.
  split; [| split].
  - intros k [-> | [-> | ->]];
      destruct (truthy (listed_etype params)), (truthy (get params "author")),
        (truthy (get params "state")), (truthy (get params "approval"));
      reflexivity.
  - destruct (truthy (listed_etype params)), (truthy (get params "author")),
      (truthy (get params "state")), (truthy (get params "approval"));
      reflexivity.
  - destruct (truthy (listed_etype params)), (truthy (get params "author")),
      (truthy (get params "state")), (truthy (get params "approval"));
      reflexivity.
Qed.

(** X4. With [ec_same_date] set, the bounds given for the creation of the
    change are ignored: whatever [on_cc_gte] and [on_cc_lte] are set to,
    the filter is the same. *)
Theorem ec_same_date_overrides_on_cc (repo : pyval) (params : dict)
  (v w : pyval) :
  truthy (get params "ec_same_date") = true ->
  generate_filter repo
    (Dict.set (Dict.set params "on_cc_gte" v) "on_cc_lte" w)
  = generate_filter repo params.
Proof.
  intros Hec.
  assert (Hget : forall k, k <> "on_cc_gte" -> k <> "on_cc_lte" ->
            get (Dict.set (Dict.set params "on_cc_gte" v) "on_cc_lte" w) k
            = get params k).
  { intros k H1 H2.
    rewrite get_set_other by (now apply not_eq_sym).
    now rewrite get_set_other by (now apply not_eq_sym). }
  unfold generate_filter, created_at_range, on_created_at_range.
  rewrite !Hget by discriminate. rewrite Hec. reflexivity.
Qed.

Lemma ec_same_date_overrides_on_cc_witness :
  generate_filter (VStr "openstack/nova")
    (Dict.set (Dict.set [("ec_same_date", VBool true); ("gte", VInt 1000)]
                 "on_cc_gte" (VInt 1)) "on_cc_lte" (VInt 2))
  = generate_filter (VStr "openstack/nova")
      [("ec_same_date", VBool true); ("gte", VInt 1000)].
Proof.
  apply (ec_same_date_overrides_on_cc (VStr "openstack/nova")
           [("ec_same_date", VBool true); ("gte", VInt 1000)] (VInt 1) (VInt 2)).
  reflexivity.
Defined.

(** X5. [generate_must_not] needs the key [exclude_authors]: without it,
    it raises [KeyError]; with it, Change documents are excluded exactly
    when asked, and the authors exactly when the list is not empty.  After
    normalization the key is always there. *)
Theorem generate_must_not_spec (params : dict) (exclude_change : bool) :
  (Dict.lookup params "exclude_authors" = None ->
   generate_must_not params exclude_change
   = Raise (KeyError "exclude_authors")) /\
  (forall authors,
     Dict.lookup params "exclude_authors" = Some authors ->
     exists must_not,
       generate_must_not params exclude_change = Ok must_not /\
       predicates_on "term" "type" must_not
       = (if exclude_change then [VStr "Change"] else []) /\
       predicates_on "terms" "author" must_not
       = (if truthy authors then [authors] else [])) /\
  (exists must_not,
     generate_must_not (set_params_defaults params) exclude_change
     = Ok must_not).
Proof.
  unfold generate_must_not. split; [| split].
  - now intros ->.
  - intros authors ->. eexists; split; [reflexivity |].
    destruct (truthy authors), exclude_change; split; reflexivity.
  - rewrite normalized_exclude_authors. eexists; reflexivity.
Qed.

Lemma generate_must_not_spec_witness :
  generate_must_not [("size", VInt 10)] true = Raise (KeyError "exclude_authors") /\
  exists must_not,
    generate_must_not [("exclude_authors", VList [VStr "zuul"])] false
    = Ok must_not /\
    predicates_on "term" "type" must_not = [] /\
    predicates_on "terms" "author" must_not = [VList [VStr "zuul"]].
Proof.
  split.
  - apply (proj1 (generate_must_not_spec [("size", VInt 10)] true)).
    reflexivity.
  - apply (proj1 (proj2 (generate_must_not_spec
                           [("exclude_authors", VList [VStr "zuul"])] false))
             (VList [VStr "zuul"])).
    reflexivity.
Defined.

(** ** Query execution *)

Section Answers.
Context {St : Type}.
Variable es : Client St.
Variables index repo : pyval.

Lemma run_query_success (body data : pyval) (st : St) :
  (forall kw, fst (es_search es kw st) = Ok data) ->
  exists st', run_query es index body st = (Ok data, st').
Proof.
  intros H. unfold run_query, try_except.
  match goal with
  | |- context [es_search es ?kw st] =>
      pose proof (H kw) as Hkw; destruct (es_search es kw st) as [r st1]
  end.
  cbn [fst] in Hkw; subst r. now exists st1.
Qed.

End Answers.

(** X6. [count_events] returns what the backend's answer holds under
    ["count"]: the count for a well-formed answer, [KeyError] for an answer
    without that key.  (A failing backend gives [{}], see C1.) *)
Theorem count_events_answer
  {St : Type} (es : Client St) (index repo answer : pyval) (params : dict)
  (st : St) :
  (forall kw, fst (es_count es kw st) = Ok answer) ->
  fst (count_events es index repo params st) = getitem answer "count".
Proof.
  intros H. unfold count_events.
  destruct (bool_query_ok repo (set_params_defaults params) true _
              (normalized_exclude_authors params)) as [mn ->].
  unfold bind at 1, lift at 1.
  match goal with
  | |- context [es_count es ?kw st] =>
      pose proof (H kw) as Hkw; destruct (es_count es kw st) as [r st1]
  end.
  cbn [fst] in Hkw; subst r. reflexivity.
Qed.

Lemma count_events_answer_witness :
  fst (count_events scripted (VStr "monocle") (VStr "openstack/nova") []
         (script [Ok (VDict [("took", VInt 3)])] 0))
  = Raise (KeyError "count").
Proof.
  apply (count_events_answer scripted (VStr "monocle") (VStr "openstack/nova")
           (VDict [("took", VInt 3)]) []
           (script [Ok (VDict [("took", VInt 3)])] 0)).
  intro kw; reflexivity.
Defined.

(** X7. When the search succeeds, the aggregation metrics hand back the
    part of the answer they look up, untouched: [count_authors] the
    cardinality value, [change_merged_count_by_duration] the range buckets,
    [pr_merged_avg_duration] the whole [agg1] object and [events_histo] the
    pair of the histogram buckets and the average; an answer without one of
    these keys gives the [KeyError] of the first missing key. *)
Theorem aggregation_metrics_hand_back_the_answer
  {St : Type} (es : Client St) (index repo data : pyval) (params : dict)
  (st : St) :
  (forall kw, fst (es_search es kw st) = Ok data) ->
  fst (count_authors es index repo params st)
  = path data ["aggregations"; "agg1"; "value"] /\
  fst (change_merged_count_by_duration es index repo params st)
  = path data ["aggregations"; "agg1"; "buckets"] /\
  fst (pr_merged_avg_duration es index repo params st)
  = path data ["aggregations"; "agg1"] /\
  fst (events_histo es index repo params st)
  = match path data ["aggregations"; "agg1"; "buckets"] with
    | Raise e => Raise e
    | Ok buckets =>
        match path data ["aggregations"; "avg_count"; "value"] with
        | Raise e => Raise e
        | Ok value => Ok (VTuple [buckets; value])
        end
    end.
Proof.
  intros H. repeat split.
  - unfold count_authors.
    destruct (bool_query_ok repo (set_params_defaults params) true _
                (normalized_exclude_authors params)) as [mn ->].
    unfold bind at 1, lift at 1.
    match goal with
    | |- context [run_query es index ?body] =>
        destruct (run_query_success es index body data st H) as [st' Hr]
    end.
    unfold bind at 1; rewrite Hr. unfold bind, lift; cbn [path].
    destruct (getitem data "aggregations") as [a|]; [| reflexivity].
    destruct (getitem a "agg1") as [b|]; [| reflexivity].
    now destruct (getitem b "value").
  - unfold change_merged_count_by_duration.
    edestruct (bool_query_ok repo) as [mn ->]; [reflexivity |].
    unfold bind at 1, lift at 1.
    match goal with
    | |- context [run_query es index ?body] =>
        destruct (run_query_success es index body data st H) as [st' Hr]
    end.
    unfold bind at 1; rewrite Hr. unfold bind, lift; cbn [path].
    destruct (getitem data "aggregations") as [a|]; [| reflexivity].
    destruct (getitem a "agg1") as [b|]; [| reflexivity].
    now destruct (getitem b "buckets").
  - unfold pr_merged_avg_duration.
    edestruct (bool_query_ok repo) as [mn ->]; [reflexivity |].
    unfold bind at 1, lift at 1.
    match goal with
    | |- context [run_query es index ?body] =>
        destruct (run_query_success es index body data st H) as [st' Hr]
    end.
    unfold bind at 1; rewrite Hr. unfold bind, lift; cbn [path].
    destruct (getitem data "aggregations") as [a|]; [| reflexivity].
    now destruct (getitem a "agg1").
  - unfold events_histo.
    destruct (bool_query_ok repo (set_params_defaults params) true _
                (normalized_exclude_authors params)) as [mn ->].
    unfold bind at 1, lift at 1;
      cbn [getitem Dict.lookup set_params_defaults String.eqb Ascii.eqb Bool.eqb].
    unfold bind at 1, lift at 1.
    match goal with
    | |- context [run_query es index ?body] =>
        destruct (run_query_success es index body data st H) as [st' Hr]
    end.
    unfold bind at 1; rewrite Hr. unfold bind, lift, ret; cbn [path].
    destruct (getitem data "aggregations") as [a|]; [| reflexivity].
    destruct (getitem a "agg1") as [b|]; [| reflexivity].
    destruct (getitem b "buckets") as [c|]; [| reflexivity].
    destruct (getitem a "avg_count") as [d|]; [| reflexivity].
    now destruct (getitem d "value").
Qed.

Lemma aggregation_metrics_hand_back_the_answer_witness :
  fst (count_authors scripted (VStr "monocle") (VStr "openstack/nova") []
         (script [cardinality_answer (VInt 42)] 0))
  = Ok (VInt 42).
Proof.
  apply (proj1 (aggregation_metrics_hand_back_the_answer scripted
                  (VStr "monocle") (VStr "openstack/nova")
                  (VDict [("aggregations",
                           VDict [("agg1", VDict [("value", VInt 42)])])])
                  [] (script [cardinality_answer (VInt 42)] 0)
                  (fun kw => eq_refl))).
Defined.

(** ** Rankings *)

(** X8. [_events_top] returns only when the search itself succeeded, after
    that single call, and its result holds the buckets of the answer
    untouched beside the two statistics. *)
Theorem events_top_hands_back_buckets
  {St : Type} (es : Client St) (index repo field : pyval) (params : dict)
  (st st' : St) (v : pyval) :
  _events_top es index repo field params st = (Ok v, st') ->
  exists kw data buckets count_avg count_median,
    es_search es kw st = (Ok data, st') /\
    path data ["aggregations"; "agg1"; "buckets"] = Ok buckets /\
    v = VDict [("buckets", buckets); ("count_avg", count_avg);
               ("count_median", count_median)].
Proof.
  unfold _events_top. intros H.
  unfold bind at 1, lift at 1 in H.
  destruct (getitem (VDict params) "size") as [size|]; [| discriminate H].
  unfold bind at 1, lift at 1 in H.
  destruct (bool_query repo params true) as [query|]; [| discriminate H].
  unfold bind at 1, run_query, try_except in H.
  match type of H with
  | context [es_search es ?kw st] =>
      exists kw; destruct (es_search es kw st) as [[data|e] st1] eqn:Es
  end.
  - exists data.
    unfold bind at 1, lift at 1 in H.
    destruct (getitem data "aggregations") as [a|] eqn:E1; [| discriminate H].
    unfold bind at 1, lift at 1 in H.
    destruct (getitem a "agg1") as [b|] eqn:E2; [| discriminate H].
    unfold bind at 1, lift at 1 in H.
    destruct (getitem b "buckets") as [buckets|] eqn:E3; [| discriminate H].
    unfold bind at 1, lift at 1 in H.
    destruct (py_iter buckets) as [bs|]; [| discriminate H].
    unfold bind at 1, lift at 1 in H.
    destruct (doc_counts bs) as [count_series|]; [| discriminate H].
    unfold bind at 1 in H.
    match type of H with
    | context [match ?m st1 with _ => _ end] =>
        destruct (m st1) as [[count_avg|] st2] eqn:Eavg; [| discriminate H]
    end.
    assert (st2 = st1) as ->.
    { destruct count_series; [now injection Eavg |].
      unfold bind, lift in Eavg.
      destruct (map_res as_int _); [| discriminate Eavg].
      now injection Eavg. }
    unfold bind at 1 in H.
    match type of H with
    | context [match ?m st1 with _ => _ end] =>
        destruct (m st1) as [[count_median|] st3] eqn:Emed; [| discriminate H]
    end.
    assert (st3 = st1) as ->.
    { destruct count_series; [now injection Emed |].
      unfold bind, lift in Emed.
      destruct (map_res as_int _); [| discriminate Emed].
      now injection Emed. }
    unfold ret in H. injection H as <- <-.
    exists buckets, count_avg, count_median.
    split; [reflexivity | split; [| reflexivity]].
    cbn [path]. now rewrite E1, E2, E3.
  - discriminate H.
Qed.

Lemma events_top_hands_back_buckets_witness :
  exists kw data buckets count_avg count_median,
    es_search scripted kw (script [ranking_answer [bucket "alice" 9; bucket "bob" 4]] 0)
    = (Ok data,
       snd (_events_top scripted (VStr "monocle") (VStr "openstack/nova")
              (VStr "author") (set_params_defaults [])
              (script [ranking_answer [bucket "alice" 9; bucket "bob" 4]] 0))) /\
    path data ["aggregations"; "agg1"; "buckets"] = Ok buckets /\
    VDict [("buckets", VList [bucket "alice" 9; bucket "bob" 4]);
           ("count_avg", VFloat (S754_finite false 7318349394477056 (-50)));
           ("count_median", VFloat (S754_finite false 7318349394477056 (-50)))]
    = VDict [("buckets", buckets); ("count_avg", count_avg);
             ("count_median", count_median)].
Proof.
  apply (events_top_hands_back_buckets scripted (VStr "monocle")
           (VStr "openstack/nova") (VStr "author") (set_params_defaults [])
           (script [ranking_answer [bucket "alice" 9; bucket "bob" 4]] 0)).
  vm_compute. reflexivity.
Defined.

(** X9. [_events_top] reads [params['size']] and [params['exclude_authors']]
    before it calls the backend: on parameters that were not normalized and
    lack one of them it raises [KeyError] and no request is made. *)
Theorem events_top_needs_normalized_params
  {St : Type} (es : Client St) (index repo field : pyval) (params : dict)
  (st : St) :
  (Dict.lookup params "size" = None ->
   _events_top es index repo field params st = (Raise (KeyError "size"), st)) /\
  (forall size,
     Dict.lookup params "size" = Some size ->
     Dict.lookup params "exclude_authors" = None ->
     _events_top es index repo field params st
     = (Raise (KeyError "exclude_authors"), st)).
Proof.
  unfold _events_top. split.
  - intros H. unfold bind at 1, lift at 1; cbn [getitem]. now rewrite H.
  - intros size Hs He. unfold bind at 1, lift at 1; cbn [getitem].
    rewrite Hs. unfold bind at 1, lift at 1, bool_query, generate_must_not.
    now rewrite He.
Qed.

Lemma events_top_needs_normalized_params_witness :
  _events_top scripted (VStr "monocle") (VStr "openstack/nova") (VStr "author")
    [("etype", VStr "Change")] (script [ranking_answer []] 0)
  = (Raise (KeyError "size"), script [ranking_answer []] 0) /\
  _events_top scripted (VStr "monocle") (VStr "openstack/nova") (VStr "author")
    [("size", VInt 3)] (script [ranking_answer []] 0)
  = (Raise (KeyError "exclude_authors"), script [ranking_answer []] 0).
Proof.
  split.
  - apply (proj1 (events_top_needs_normalized_params scripted (VStr "monocle")
                    (VStr "openstack/nova") (VStr "author")
                    [("etype", VStr "Change")] (script [ranking_answer []] 0))).
    reflexivity.
  - apply (proj2 (events_top_needs_normalized_params scripted (VStr "monocle")
                    (VStr "openstack/nova") (VStr "author")
                    [("size", VInt 3)] (script [ranking_answer []] 0))
             (VInt 3)); reflexivity.
Defined.

(** ** Counters and ratios *)

Lemma terms_of_tuple_etype (repo : pyval) (p : dict) (e : string) :
  get p "etype" = VTuple [VStr e] ->
  predicates_on "terms" "type" (generate_filter repo (set_params_defaults p))
  = [VTuple [VStr e]].
Proof.
  intros Hp.
  destruct (generate_filter_optional_predicates repo (set_params_defaults p))
    as (_ & H & _).
  rewrite H. unfold listed_etype.
  change (get (set_params_defaults p) "etype") with (get p "etype").
  now rewrite Hp.
Qed.

Lemma terms_of_tuple_etype_raw (repo : pyval) (p : dict) (es : list pyval) :
  get p "etype" = VTuple es -> es <> [] ->
  predicates_on "terms" "type" (generate_filter repo p) = [VTuple es].
Proof.
  intros Hp Hne.
  destruct (generate_filter_optional_predicates repo p) as (_ & H & _).
  rewrite H. unfold listed_etype. rewrite Hp.
  destruct es; [contradiction | reflexivity].
Qed.

(** X10. [changes_events_counters] makes ten backend calls, a count and a
    cardinality search for each of the five event types in turn, and
    returns one entry per event type, in that order, pairing the two
    answers. *)
Theorem changes_events_counters_pairs_answers
  (index repo : pyval) (params : dict) (now : Z)
  (c1 a1 c2 a2 c3 a3 c4 a4 c5 a5 : pyval) :
  let run :=
    changes_events_counters scripted index repo params
      (script
         [ Ok (VDict [("count", c1)]); cardinality_answer a1;
           Ok (VDict [("count", c2)]); cardinality_answer a2;
           Ok (VDict [("count", c3)]); cardinality_answer a3;
           Ok (VDict [("count", c4)]); cardinality_answer a4;
           Ok (VDict [("count", c5)]); cardinality_answer a5 ]
         now) in
  fst run
  = Ok (VDict
          [("ChangeCreatedEvent",
            VDict [("events_count", c1); ("authors_count", a1)]);
           ("ChangeReviewedEvent",
            VDict [("events_count", c2); ("authors_count", a2)]);
           ("ChangeCommentedEvent",
            VDict [("events_count", c3); ("authors_count", a3)]);
           ("ChangeAbandonedEvent",
            VDict [("events_count", c4); ("authors_count", a4)]);
           ("ChangeMergedEvent",
            VDict [("events_count", c5); ("authors_count", a5)])]) /\
  pending (snd run) = [] /\
  map (fun kw => predicates_on "terms" "type" (logged_filter kw))
    (calls (snd run))
  = [ [VTuple [VStr "ChangeCreatedEvent"]]; [VTuple [VStr "ChangeCreatedEvent"]];
      [VTuple [VStr "ChangeReviewedEvent"]]; [VTuple [VStr "ChangeReviewedEvent"]];
      [VTuple [VStr "ChangeCommentedEvent"]]; [VTuple [VStr "ChangeCommentedEvent"]];
      [VTuple [VStr "ChangeAbandonedEvent"]]; [VTuple [VStr "ChangeAbandonedEvent"]];
      [VTuple [VStr "ChangeMergedEvent"]]; [VTuple [VStr "ChangeMergedEvent"]] ].
Proof.
  cbv zeta. split; [reflexivity | split; [reflexivity |]].
  unfold changes_events_counters, count_events, count_authors, run_query,
    try_except, bool_query, generate_must_not.
  cbn [for_each bind lift ret fst snd Dict.set Dict.lookup set_params_defaults
         String.eqb Ascii.eqb Bool.eqb scripted es_count es_search serve script
         pending calls clock app getitem cardinality_answer map logged_filter
         path].
  repeat (erewrite terms_of_tuple_etype by reflexivity).
  reflexivity.
Qed.

Lemma count_events_swallows_failure
  {St : Type} (es : Client St) (index repo : pyval) (params : dict) (st : St) :
  (forall kw, exists e, fst (es_count es kw st) = Raise e) ->
  exists st', count_events es index repo params st = (Ok (VDict []), st').
Proof.
  intros H. unfold count_events.
  destruct (bool_query_ok repo (set_params_defaults params) true _
              (normalized_exclude_authors params)) as [mn ->].
  unfold bind at 1, lift at 1.
  match goal with
  | |- context [es_count es ?kw st] => destruct (H kw) as [e He]
  end.
  destruct (es_count es _ st) as [[a|e'] st']; [discriminate He |].
  now exists st'.
Qed.

(** X11. When the backend fails on every count, [changes_closed_ratios]
    does not return: the three counts are the default [{}] of
    [count_events], and dividing one dictionary by another raises
    [TypeError]. *)
Theorem changes_closed_ratios_raises_when_counts_fail
  {St : Type} (es : Client St) (index repo : pyval) (params : dict) (st : St) :
  (forall kw st1, exists e, fst (es_count es kw st1) = Raise e) ->
  fst (changes_closed_ratios es index repo params st) = Raise TypeError.
Proof.
  intros H.
  destruct (count_events_swallows_failure es index repo
              (etype_params params "ChangeCreatedEvent") st
              (fun kw => H kw st)) as [st1 H1].
  destruct (count_events_swallows_failure es index repo
              (etype_params params "ChangeMergedEvent") st1
              (fun kw => H kw st1)) as [st2 H2].
  destruct (count_events_swallows_failure es index repo
              (etype_params params "ChangeAbandonedEvent") st2
              (fun kw => H kw st2)) as [st3 H3].
  now rewrite (changes_closed_ratios_run es index repo params _ _ _ _ _ _ _
                 H1 H2 H3).
Qed.

Lemma changes_closed_ratios_raises_when_counts_fail_witness :
  fst (changes_closed_ratios unreachable (VStr "monocle")
         (VStr "openstack/nova") [] tt)
  = Raise TypeError.
Proof.
  apply (changes_closed_ratios_raises_when_counts_fail unreachable
           (VStr "monocle") (VStr "openstack/nova") [] tt).
  intros kw st1. exists TransportError. reflexivity.
Defined.

(** X12. Whenever [changes_closed_ratios] returns, its result has exactly
    the two ratio entries, both floats: the three counts it collected are
    deleted before it returns. *)
Theorem changes_closed_ratios_result_shape
  {St : Type} (es : Client St) (index repo : pyval) (params : dict)
  (st st' : St) (v : pyval) :
  changes_closed_ratios es index repo params st = (Ok v, st') ->
  exists r1 r2,
    v = VDict [("merged/created_ratio", VFloat r1);
               ("abandoned/created_ratio", VFloat r2)].
Proof.
  intros H.
  destruct (count_events es index repo
              (etype_params params "ChangeCreatedEvent") st)
    as [[created|e1] st1] eqn:H1.
  2:{ unfold changes_closed_ratios in H.
      unfold bind at 1 in H; cbn [for_each] in H. unfold bind at 1 2 in H.
      change (Dict.set (fst (set_params_defaults params, @nil (string * pyval)))
                "etype" (VTuple [VStr "ChangeCreatedEvent"]))
        with (etype_params params "ChangeCreatedEvent") in H.
      rewrite H1 in H. discriminate H. }
  destruct (count_events es index repo
              (etype_params params "ChangeMergedEvent") st1)
    as [[merged|e2] st2] eqn:H2.
  2:{ unfold changes_closed_ratios in H.
      unfold bind at 1 in H; cbn [for_each] in H. unfold bind at 1 2 in H.
      change (Dict.set (fst (set_params_defaults params, @nil (string * pyval)))
                "etype" (VTuple [VStr "ChangeCreatedEvent"]))
        with (etype_params params "ChangeCreatedEvent") in H.
      rewrite H1 in H. cbn [ret fst snd Dict.set] in H.
      unfold bind at 1 2 in H.
      change (Dict.set (etype_params params "ChangeCreatedEvent")
                "etype" (VTuple [VStr "ChangeMergedEvent"]))
        with (etype_params params "ChangeMergedEvent") in H.
      rewrite H2 in H. discriminate H. }
  destruct (count_events es index repo
              (etype_params params "ChangeAbandonedEvent") st2)
    as [[abandoned|e3] st3] eqn:H3.
  2:{ unfold changes_closed_ratios in H.
      unfold bind at 1 in H; cbn [for_each] in H. unfold bind at 1 2 in H.
      change (Dict.set (fst (set_params_defaults params, @nil (string * pyval)))
                "etype" (VTuple [VStr "ChangeCreatedEvent"]))
        with (etype_params params "ChangeCreatedEvent") in H.
      rewrite H1 in H. cbn [ret fst snd Dict.set] in H.
      unfold bind at 1 2 in H.
      change (Dict.set (etype_params params "ChangeCreatedEvent")
                "etype" (VTuple [VStr "ChangeMergedEvent"]))
        with (etype_params params "ChangeMergedEvent") in H.
      rewrite H2 in H.
      cbn [ret fst snd Dict.set String.eqb Ascii.eqb Bool.eqb] in H.
      unfold bind at 1 2 in H.
      change (Dict.set (etype_params params "ChangeMergedEvent")
                "etype" (VTuple [VStr "ChangeAbandonedEvent"]))
        with (etype_params params "ChangeAbandonedEvent") in H.
      rewrite H3 in H. discriminate H. }
  rewrite (changes_closed_ratios_run es index repo params _ _ _ _ _ _ _
             H1 H2 H3) in H.
  unfold percentage in H.
  destruct (py_truediv merged created) as [q1|]; [| discriminate H].
  destruct (py_truediv abandoned merged) as [q2|]; [| discriminate H].
  injection H as <- _. now eexists; eexists.
Qed.

Lemma changes_closed_ratios_result_shape_witness :
  exists r1 r2,
    VDict [("merged/created_ratio", VFloat (S754_finite false 4686558362232422 (-47)));
           ("abandoned/created_ratio", VFloat (S754_zero false))]
    = VDict [("merged/created_ratio", VFloat r1);
             ("abandoned/created_ratio", VFloat r2)].
Proof.
  pose (s0 := script [count_answer 3; count_answer 1; count_answer 0] 0).
  apply (changes_closed_ratios_result_shape scripted (VStr "monocle")
           (VStr "openstack/nova") [] s0
           (snd (changes_closed_ratios scripted (VStr "monocle")
                   (VStr "openstack/nova") [] s0))).
  vm_compute. reflexivity.
Defined.

(** ** First event on changes *)

Section Scan.
Context {St : Type}.
Variable es : Client St.
Variables index repo : pyval.

Lemma _scan_events_result (params : dict) (excl : pyval)
  (hits : res (list pyval)) (st : St) :
  Dict.lookup params "exclude_authors" = Some excl ->
  (forall kw, fst (scanner es kw st) = hits) ->
  fst (_scan_events es index repo params st)
  = match hits with
    | Ok data => map_res (fun d => getitem d "_source") data
    | Raise e => Raise e
    end.
Proof.
  intros Hexcl H. unfold _scan_events.
  destruct (bool_query_ok repo params true excl Hexcl) as [mn ->].
  unfold bind at 1, lift at 1. unfold bind at 1.
  match goal with
  | |- context [scanner es ?kw st] =>
      pose proof (H kw) as Hkw; destruct (scanner es kw st) as [r st1]
  end.
  cbn [fst] in Hkw; subst r. now destruct hits.
Qed.

Lemma first_event_after_scan (params : dict) (hits : res (list pyval))
  (st : St) :
  (forall kw, fst (scanner es kw st) = hits) ->
  (hits = Ok [] ->
   fst (_first_event_on_changes es index repo params st)
   = Raise ZeroDivisionError) /\
  (forall e, hits = Raise e ->
   fst (_first_event_on_changes es index repo params st) = Raise e).
Proof.
  intros H.
  pose proof (_scan_events_result (set_params_defaults params) _ hits st
                (normalized_exclude_authors params) H) as Hscan.
  split; [intros Hh | intros e Hh]; subst hits;
    unfold _first_event_on_changes; unfold bind at 1;
    destruct (_scan_events es index repo (set_params_defaults params) st)
      as [r st1]; cbn [fst] in Hscan; subst r; reflexivity.
Qed.
End Scan.

(** X13. With no matching event, [_first_event_on_changes] (and the two
    metrics built on it) does not return an empty result: there is no
    group, and the mean divides by [len(groups) = 0], which raises
    [ZeroDivisionError]. *)
Theorem first_event_on_no_event_divides_by_zero
  {St : Type} (es : Client St) (index repo : pyval) (params : dict) (st : St) :
  (forall kw, fst (scanner es kw st) = Ok []) ->
  fst (_first_event_on_changes es index repo params st) = Raise ZeroDivisionError /\
  fst (first_comment_on_changes es index repo params st) = Raise ZeroDivisionError /\
  fst (first_review_on_changes es index repo params st) = Raise ZeroDivisionError.
Proof.
  intros H. unfold first_comment_on_changes, first_review_on_changes.
  repeat split;
    exact (proj1 (first_event_after_scan es index repo _ (Ok []) st H) eq_refl).
Qed.

Lemma first_event_on_no_event_divides_by_zero_witness :
  fst (first_comment_on_changes scripted (VStr "monocle")
         (VStr "openstack/nova") [] (script [Ok (VList [])] 0))
  = Raise ZeroDivisionError.
Proof.
  apply (proj1 (proj2 (first_event_on_no_event_divides_by_zero scripted
                         (VStr "monocle") (VStr "openstack/nova") []
                         (script [Ok (VList [])] 0) (fun kw => eq_refl)))).
Defined.

(** X14. The scan is not guarded as [run_query] is: an exception of the
    backend during the scan comes out of [_first_event_on_changes],
    [first_comment_on_changes] and [first_review_on_changes] as it is. *)
Theorem scan_failure_propagates
  {St : Type} (es : Client St) (index repo : pyval) (params : dict) (st : St)
  (e : exn) :
  (forall kw, fst (scanner es kw st) = Raise e) ->
  fst (_first_event_on_changes es index repo params st) = Raise e /\
  fst (first_comment_on_changes es index repo params st) = Raise e /\
  fst (first_review_on_changes es index repo params st) = Raise e.
Proof.
  intros H. unfold first_comment_on_changes, first_review_on_changes.
  repeat split;
    exact (proj2 (first_event_after_scan es index repo _ (Raise e) st H) e eq_refl).
Qed.

Lemma scan_failure_propagates_witness :
  fst (first_review_on_changes unreachable (VStr "monocle")
         (VStr "openstack/nova") [] tt)
  = Raise TransportError.
Proof.
  apply (proj2 (proj2 (scan_failure_propagates unreachable (VStr "monocle")
                         (VStr "openstack/nova") [] tt TransportError
                         (fun kw => eq_refl)))).
Defined.

Lemma group_step_spec (g0 g1 : group) (event : pyval) :
  group_step g0 event = Ok g1 ->
  exists c t,
    (change_created_at g0 = Some c \/
     (change_created_at g0 = None /\ change_time event = Ok c)) /\
    event_time event = Ok t /\
    change_created_at g1 = Some c /\
    ((t < first_event_created_at g0 /\
      first_event_created_at g1 = t /\
      getitem event "author" = Ok (first_event_author g1) /\
      delta g1 = Some (t - c)) \/
     (first_event_created_at g0 <= t /\
      first_event_created_at g1 = first_event_created_at g0 /\
      first_event_author g1 = first_event_author g0 /\
      delta g1 = delta g0)).
Proof.
  unfold group_step, event_time, change_time.
  destruct g0 as [created first author d]; cbn [change_created_at
    first_event_created_at first_event_author delta].
  destruct created as [c|].
  - destruct (getitem event "created_at") as [v|]; [| discriminate].
    destruct (Datetime.strptime v) as [t|]; [| discriminate].
    cbn [change_created_at first_event_created_at first_event_author delta].
    destruct (Z.ltb_spec t first).
    + destruct (getitem event "author") as [a|]; [| discriminate].
      intros [= <-]. exists c, t. cbn. intuition.
    + intros [= <-]. exists c, t. cbn. intuition.
  - destruct (getitem event "on_created_at") as [w|]; [| discriminate].
    destruct (Datetime.strptime w) as [c|]; [| discriminate].
    destruct (getitem event "created_at") as [v|]; [| discriminate].
    destruct (Datetime.strptime v) as [t|]; [| discriminate].
    cbn [change_created_at first_event_created_at first_event_author delta].
    destruct (Z.ltb_spec t first).
    + destruct (getitem event "author") as [a|]; [| discriminate].
      intros [= <-]. exists c, t. cbn. intuition.
    + intros [= <-]. exists c, t. cbn. intuition.
Qed.

Lemma group_loop_spec (events : list pyval) :
  forall g0 g,
    for_each_res group_step events g0 = Ok g ->
    first_event_created_at g <= first_event_created_at g0 /\
    (forall e, In e events ->
       exists t, event_time e = Ok t /\ first_event_created_at g <= t) /\
    ((first_event_created_at g = first_event_created_at g0 /\
      first_event_author g = first_event_author g0 /\
      delta g = delta g0) \/
     (exists e t c,
        In e events /\ event_time e = Ok t /\
        t = first_event_created_at g /\ t < first_event_created_at g0 /\
        getitem e "author" = Ok (first_event_author g) /\
        change_created_at g = Some c /\ delta g = Some (t - c))) /\
    (forall c, change_created_at g0 = Some c -> change_created_at g = Some c) /\
    (change_created_at g0 = None ->
     match events with
     | [] => change_created_at g = None
     | e :: _ => exists c, change_time e = Ok c /\ change_created_at g = Some c
     end).
Proof.
  induction events as [|event events IH]; intros g0 g; cbn [for_each_res].
  - intros [= <-]. repeat split; try lia; try tauto. intros e [].
  - destruct (group_step g0 event) as [g1|] eqn:Estep; [| discriminate].
    intros Hrest.
    destruct (group_step_spec _ _ _ Estep) as (c & t & Hc & Ht & Hc1 & Hcase).
    destruct (IH _ _ Hrest) as (Hle & Hall & Hwho & Hkeep & _).
    pose proof (Hkeep c Hc1) as Hcg.
    assert (Hfirst1 : first_event_created_at g1 <= t
                      /\ first_event_created_at g1 <= first_event_created_at g0)
      by (destruct Hcase as [(? & ? & _) | (? & ? & _)]; lia).
    split; [lia | split; [| split; [| split]]].
    + intros e [<- | Hin]; [exists t; split; [assumption | lia] | now apply Hall].
    + destruct Hwho as [(Hf & Ha & Hd) | (e & t' & c' & Hin & He & Ht' & Hlt & Haut & Hc' & Hd)].
      * destruct Hcase as [(Hlt & Hf1 & Ha1 & Hd1) | (Hge & Hf1 & Ha1 & Hd1)].
        -- right. exists event, t, c. rewrite Hf, Ha, Hd.
           repeat split; try assumption; try lia. now left.
        -- left. rewrite Hf, Ha, Hd. now repeat split.
      * right. exists e, t', c'. repeat split; try assumption; try lia.
        now right.
    + intros c0 Hc0. destruct Hc as [Hc | [Hc _]]; congruence.
    + intros Hnone. destruct Hc as [Hc | [_ Hc]]; [congruence |].
      now exists c.
Qed.

(** X15. What the inner loop of [_first_event_on_changes] records for one
    change: the first qualifying event is the earliest of the group (its
    time is at most the time of every event of the group), its author is
    the one credited, and the delay runs from the [on_created_at] of the
    first event of the group.  The record starts at the current time, so
    when no event of the group is earlier than now, nothing is recorded and
    [delta] stays [None]. *)
Theorem first_event_is_earliest (events : list pyval) (now : Z) (g : group) :
  for_each_res group_step events (fresh_group now) = Ok g ->
  (forall e, In e events ->
     exists t, event_time e = Ok t /\ first_event_created_at g <= t) /\
  ((delta g = None /\ first_event_author g = VNone /\
    forall e, In e events -> exists t, event_time e = Ok t /\ now <= t) \/
   (exists e t head c,
      In e events /\ event_time e = Ok t /\
      t = first_event_created_at g /\ t < now /\
      getitem e "author" = Ok (first_event_author g) /\
      hd_error events = Some head /\ change_time head = Ok c /\
      delta g = Some (t - c))).
Proof.
  intros H.
  destruct (group_loop_spec events _ _ H) as (Hle & Hall & Hwho & _ & Hcreated).
  cbn [fresh_group first_event_created_at first_event_author delta
         change_created_at] in *.
  split; [exact Hall |].
  destruct Hwho as [(Hf & Ha & Hd) | (e & t & c & Hin & He & Ht & Hlt & Haut & Hc & Hd)].
  - left. repeat split; try assumption.
    intros e Hin. destruct (Hall e Hin) as (t & He & Hge).
    exists t. split; [assumption | lia].
  - right. destruct events as [|head events]; [destruct Hin |].
    destruct (Hcreated eq_refl) as (c' & Hhead & Hc').
    exists e, t, head, c. repeat split; try assumption.
    congruence.
Qed.

Lemma first_event_is_earliest_witness :
  exists g,
    for_each_res group_step
      [ VDict [("created_at", VStr "2020-01-01T02:00:00Z");
               ("on_created_at", VStr "2020-01-01T00:00:00Z");
               ("author", VStr "bob")];
        VDict [("created_at", VStr "2020-01-01T01:00:00Z");
               ("on_created_at", VStr "2020-01-01T00:00:00Z");
               ("author", VStr "alice")] ]
      (fresh_group 1609459200000000) = Ok g /\
    first_event_author g = VStr "alice" /\
    delta g = Some 3600000000 /\
    forall e,
      In e [ VDict [("created_at", VStr "2020-01-01T02:00:00Z");
                    ("on_created_at", VStr "2020-01-01T00:00:00Z");
                    ("author", VStr "bob")];
             VDict [("created_at", VStr "2020-01-01T01:00:00Z");
                    ("on_created_at", VStr "2020-01-01T00:00:00Z");
                    ("author", VStr "alice")] ] ->
      exists t, event_time e = Ok t /\ first_event_created_at g <= t.
Proof.
  eexists. split; [vm_compute; reflexivity |].
  split; [reflexivity | split; [reflexivity |]].
  refine (proj1 (first_event_is_earliest _ 1609459200000000 _ _)).
  vm_compute. reflexivity.
Defined.

(** *** Sorting and grouping by change *)

Lemma leb_lt_or_eq (a b : string) :
  String.leb a b = true <-> OrderedTypeEx.String_as_OT.lt a b \/ a = b.
Proof.
  unfold String.leb.
  rewrite <- OrderedTypeEx.String_as_OT.cmp_lt,
    <- OrderedTypeEx.String_as_OT.cmp_eq.
  unfold OrderedTypeEx.String_as_OT.cmp.
  destruct (String.compare a b); split; intros H;
    try reflexivity; try discriminate H; try tauto;
    destruct H as [H | H]; discriminate H.
Qed.

Lemma leb_trans (a b c : string) :
  String.leb a b = true -> String.leb b c = true -> String.leb a c = true.
Proof.
  rewrite !leb_lt_or_eq. intros [H1 | ->] [H2 | ->]; try tauto.
  left. now apply OrderedTypeEx.String_as_OT.lt_trans with b.
Qed.

Lemma leb_false_flip (a b : string) :
  String.leb a b = false -> String.leb b a = true.
Proof.
  intros H. destruct (String.leb_total a b) as [H' | H']; congruence.
Qed.

Lemma groupby_flat (l : list (string * pyval)) :
  flat_map (fun g => map (pair (fst g)) (snd g)) (groupby l) = l.
Proof.
  induction l as [|[k x] l IH]; cbn; [reflexivity |].
  destruct (groupby l) as [|[k' xs] gs]; cbn in *.
  - now rewrite <- IH.
  - destruct (String.eqb_spec k k') as [-> | Hne]; cbn; now rewrite <- IH.
Qed.

Lemma groupby_nonempty (l : list (string * pyval)) (g : string * list pyval) :
  In g (groupby l) -> snd g <> [].
Proof.
  revert g; induction l as [|[k x] l IH]; cbn; intros g; [tauto |].
  destruct (groupby l) as [|[k' xs] gs]; cbn.
  - intros [<- | []]; discriminate.
  - destruct (String.eqb k k'); cbn.
    + intros [<- | H]; [discriminate | apply IH; now right].
    + intros [<- | H]; [discriminate | now apply IH].
Qed.

Lemma groupby_keys (l : list (string * pyval)) (k : string) :
  In k (map fst (groupby l)) -> In k (map fst l).
Proof.
  intros H. apply in_map_iff in H. destruct H as ([k0 xs] & <- & Hin).
  pose proof (groupby_nonempty _ _ Hin) as Hne. cbn in *.
  destruct xs as [|x xs]; [congruence |].
  rewrite <- (groupby_flat l) at 1. apply in_map_iff.
  exists (k0, x). split; [reflexivity |].
  apply in_flat_map. exists (k0, x :: xs). split; [assumption | now left].
Qed.

Lemma groupby_head (l : list (string * pyval)) :
  hd_error (map fst (groupby l)) = hd_error (map fst l).
Proof.
  destruct l as [|[k x] l]; cbn; [reflexivity |].
  destruct (groupby l) as [|[k' xs] gs]; [reflexivity |].
  now destruct (String.eqb k k').
Qed.

Lemma groupby_nodup (l : list (string * pyval)) :
  StronglySorted (fun x y => String.leb (fst x) (fst y) = true) l ->
  NoDup (map fst (groupby l)).
Proof.
  induction l as [|[k x] l IH]; cbn; intros Hs; [constructor |].
  inversion Hs as [|? ? Hl Hk]; subst.
  pose proof (IH Hl) as Hnd. pose proof (groupby_head l) as Hhd.
  pose proof (groupby_keys l) as Hkeys.
  destruct (groupby l) as [|[k' xs] gs]; cbn in *.
  - constructor; [tauto | constructor].
  - destruct (String.eqb_spec k k') as [-> | Hne]; cbn; [exact Hnd |].
    constructor; [| exact Hnd].
    intros Hin. apply Hne.
    destruct l as [|[k0 y] l0]; cbn in Hhd; [discriminate Hhd |].
    injection Hhd as <-.
    inversion Hk as [|? ? Hkk' _]; subst; cbn in Hkk'.
    apply String.leb_antisym; [exact Hkk' |].
    destruct (Hkeys k Hin) as [<- | Hin0]; [contradiction |].
    inversion Hl as [|? ? _ Hk0]; subst.
    apply in_map_iff in Hin0. destruct Hin0 as ([k1 z] & <- & Hin1).
    rewrite Forall_forall in Hk0. exact (Hk0 _ Hin1).
Qed.

(** X16. Sorting the scanned events by change and grouping equal
    neighbours gives one group per change: no change identifier comes
    twice (so [groups[pr] = ...] never overwrites a group), no group is
    empty, and the groups together hold every scanned event exactly
    once. *)
Theorem one_group_per_change (keyed : list (string * pyval)) :
  let groups :=
    groupby (sorted (fun x y : string * pyval => String.leb (fst x) (fst y))
               keyed) in
  NoDup (map fst groups) /\
  (forall g, In g groups -> snd g <> []) /\
  Permutation (flat_map (fun g => map (pair (fst g)) (snd g)) groups) keyed.
Proof.
  cbv zeta. split; [| split].
  - apply groupby_nodup.
    apply (sorted_ordered (fun x y : string * pyval => String.leb (fst x) (fst y))).
    + intros x y. apply leb_false_flip.
    + intros x y z. apply leb_trans.
  - intros g. apply groupby_nonempty.
  - rewrite groupby_flat. symmetry. apply sorted_perm.
Qed.

(** *** Requests of the change-level and first-event metrics *)

Lemma group_loop_keeps_state (gs : list (string * list pyval)) :
  forall (acc : list (string * group)) (st : mock),
    snd (for_each
           (fun (groups : list (string * group)) (pe : string * list pyval) =>
              now <- (fun st => let (t, st') := datetime_now scripted st in
                                (Ok t, st')) ;;
              g <- lift (for_each_res group_step (snd pe)
                           {| change_created_at := None;
                              first_event_created_at := now;
                              first_event_author := VNone;
                              delta := None |}) ;;
              ret (Dict.set groups (fst pe) g))
           gs acc st) = st.
Proof.
  induction gs as [|pe gs IH]; intros acc st; cbn [for_each]; [reflexivity |].
  unfold bind at 1. unfold bind at 1. cbn [datetime_now scripted].
  unfold bind at 1, lift at 1.
  destruct (for_each_res group_step (snd pe) _) as [g|]; [| reflexivity].
  unfold ret at 1. apply IH.
Qed.

Lemma first_event_single_request (index repo : pyval) (params : dict)
  (st : mock) :
  snd (_first_event_on_changes scripted index repo params st)
  = snd (_scan_events scripted index repo (set_params_defaults params) st).
Proof.
  unfold _first_event_on_changes. unfold bind at 1.
  destruct (_scan_events scripted index repo (set_params_defaults params) st)
    as [[events|e] st1]; [| reflexivity].
  cbn [snd]. unfold bind at 1, lift at 1.
  destruct (map_res keyfunc events) as [keyed|]; [| reflexivity].
  unfold bind at 1.
  match goal with
  | |- context [for_each ?body ?gs ?acc st1] =>
      pose proof (group_loop_keeps_state gs acc st1) as Hloop;
      destruct (for_each body gs acc st1) as [[groups|] st2]
  end; cbn [snd] in Hloop; subst st2; [| reflexivity].
  unfold bind at 1, lift at 1.
  destruct (for_each_res tally _ _) as [totals|]; [| reflexivity].
  unfold bind at 1, lift at 1.
  destruct (int_truediv _ _) as [q|]; [| reflexivity].
  unfold bind at 1, lift at 1.
  destruct (int_of_float q); reflexivity.
Qed.

(** X17. [first_comment_on_changes] and [first_review_on_changes] make one
    backend call, the scan, whatever it answers; its filter holds the
    event type of the metric, in place of any [etype] of the caller, and
    Change documents are excluded. *)
Theorem first_event_metrics_scan_their_event_type
  (index repo : pyval) (params : dict) (answers : list (res pyval)) (now : Z) :
  (exists kw,
     calls (snd (first_comment_on_changes scripted index repo params
                   (script answers now))) = [kw] /\
     predicates_on "terms" "type" (scanned_filter kw)
     = [VTuple [VStr "ChangeCommentedEvent"]] /\
     predicates_on "term" "type" (scanned_must_not kw) = [VStr "Change"]) /\
  (exists kw,
     calls (snd (first_review_on_changes scripted index repo params
                   (script answers now))) = [kw] /\
     predicates_on "terms" "type" (scanned_filter kw)
     = [VTuple [VStr "ChangeReviewedEvent"]] /\
     predicates_on "term" "type" (scanned_must_not kw) = [VStr "Change"]).
Proof.
  split.
  - unfold first_comment_on_changes. rewrite first_event_single_request.
    unfold _scan_events, bool_query, generate_must_not.
    cbn [Dict.set Dict.lookup set_params_defaults String.eqb Ascii.eqb Bool.eqb].
    unfold bind at 1, lift at 1. unfold bind at 1.
    cbn [scanner scripted serve_scan serve script pending calls clock app].
    eexists. split.
    + destruct answers as [|[[]|] rest]; cbn [calls snd app]; reflexivity.
    + unfold scanned_filter, scanned_must_not;
        cbn [path getitem Dict.lookup String.eqb Ascii.eqb Bool.eqb].
      split.
      * erewrite terms_of_tuple_etype_raw; [reflexivity | reflexivity | discriminate].
      * match goal with
        | |- context [if truthy ?x then _ else _] => destruct (truthy x)
        end; reflexivity.
  - unfold first_review_on_changes. rewrite first_event_single_request.
    unfold _scan_events, bool_query, generate_must_not.
    cbn [Dict.set Dict.lookup set_params_defaults String.eqb Ascii.eqb Bool.eqb].
    unfold bind at 1, lift at 1. unfold bind at 1.
    cbn [scanner scripted serve_scan serve script pending calls clock app].
    eexists. split.
    + destruct answers as [|[[]|] rest]; cbn [calls snd app]; reflexivity.
    + unfold scanned_filter, scanned_must_not;
        cbn [path getitem Dict.lookup String.eqb Ascii.eqb Bool.eqb].
      split.
      * erewrite terms_of_tuple_etype_raw; [reflexivity | reflexivity | discriminate].
      * match goal with
        | |- context [if truthy ?x then _ else _] => destruct (truthy x)
        end; reflexivity.
Qed.

Lemma merged_change_filter (repo : pyval) (params : dict) :
  let p :=
    Dict.set (Dict.set (set_params_defaults params) "etype"
                (VTuple [VStr "Change"])) "state" (VStr "MERGED") in
  predicates_on "terms" "type" (generate_filter repo p) = [VTuple [VStr "Change"]] /\
  predicates_on "term" "state" (generate_filter repo p) = [VStr "MERGED"].
Proof.
  cbv zeta.
  destruct (generate_filter_optional_predicates repo
              (Dict.set (Dict.set (set_params_defaults params) "etype"
                           (VTuple [VStr "Change"])) "state" (VStr "MERGED")))
    as (Hterm & Hterms & _).
  split.
  - rewrite Hterms. reflexivity.
  - rewrite (Hterm "state") by tauto. reflexivity.
Qed.

(** X18. The two metrics over merged changes make one search, whatever it
    answers, and ask for Change documents in state MERGED: the filter
    holds the inclusion predicate on the type Change and the exact match
    on the state MERGED, and the negative filter does not exclude Change
    documents.  An [etype] or [state] of the caller is replaced. *)
Theorem merged_change_metrics_request
  (index repo : pyval) (params : dict) (answers : list (res pyval)) (now : Z) :
  (exists kw,
     calls (snd (change_merged_count_by_duration scripted index repo params
                   (script answers now))) = [kw] /\
     predicates_on "terms" "type" (logged_filter kw) = [VTuple [VStr "Change"]] /\
     predicates_on "term" "state" (logged_filter kw) = [VStr "MERGED"] /\
     predicates_on "term" "type" (logged_must_not kw) = []) /\
  (exists kw,
     calls (snd (pr_merged_avg_duration scripted index repo params
                   (script answers now))) = [kw] /\
     predicates_on "terms" "type" (logged_filter kw) = [VTuple [VStr "Change"]] /\
     predicates_on "term" "state" (logged_filter kw) = [VStr "MERGED"] /\
     predicates_on "term" "type" (logged_must_not kw) = []).
Proof.
  destruct (merged_change_filter repo params) as [Hterms Hstate].
  split.
  - unfold change_merged_count_by_duration, bool_query, generate_must_not.
    cbn [Dict.set Dict.lookup set_params_defaults String.eqb Ascii.eqb Bool.eqb].
    unfold bind at 1, lift at 1.
    unfold bind at 1, run_query, try_except, scripted, es_search, serve, script;
      cbn [pending calls clock app].
    eexists. split;
      [destruct answers as [|[a|e] rest]; cbn [calls app]; run_pure |].
    split; [exact Hterms | split; [exact Hstate |]].
    + unfold logged_must_not;
        cbn [path getitem Dict.lookup String.eqb Ascii.eqb Bool.eqb].
      match goal with
      | |- context [if truthy ?x then _ else _] => destruct (truthy x)
      end; reflexivity.
  - unfold pr_merged_avg_duration, bool_query, generate_must_not.
    cbn [Dict.set Dict.lookup set_params_defaults String.eqb Ascii.eqb Bool.eqb].
    unfold bind at 1, lift at 1.
    unfold bind at 1, run_query, try_except, scripted, es_search, serve, script;
      cbn [pending calls clock app].
    eexists. split;
      [destruct answers as [|[a|e] rest]; cbn [calls app]; run_pure |].
    split; [exact Hterms | split; [exact Hstate |]].
    + unfold logged_must_not;
        cbn [path getitem Dict.lookup String.eqb Ascii.eqb Bool.eqb].
      match goal with
      | |- context [if truthy ?x then _ else _] => destruct (truthy x)
      end; reflexivity.
Qed.

(** ** Round trips of the peer strength *)

Lemma events_top_one_call (index repo field : pyval) (p : dict)
  (size excl : pyval) (st : mock) :
  Dict.lookup p "size" = Some size ->
  Dict.lookup p "exclude_authors" = Some excl ->
  List.length (calls (snd (_events_top scripted index repo field p st)))
  = S (List.length (calls st)).
Proof.
  intros Hsize Hexcl. unfold _events_top.
  destruct (bool_query_ok repo p true excl Hexcl) as [mn ->].
  unfold bind at 1, lift at 1; cbn [getitem]; rewrite Hsize.
  unfold bind at 1, lift at 1.
  unfold bind at 1, run_query, try_except, scripted, es_search, serve.
  assert (Hlen : forall kw : pyval,
            List.length (calls st ++ [kw]) = S (List.length (calls st)))
    by (intros kw; rewrite length_app; cbn; lia).
  destruct (pending st) as [|[a|e] rest]; cbn [calls];
    run_pure; cbn [snd calls]; apply Hlen.
Qed.

Lemma partner_rankings_calls (index repo : pyval) (authors : list pyval) :
  forall (p : dict) (size excl : pyval) (rk : list (pyval * list pyval))
         (st st' : mock),
    Dict.lookup p "size" = Some size ->
    Dict.lookup p "exclude_authors" = Some excl ->
    partner_rankings scripted index repo p authors rk st st' ->
    List.length authors = List.length rk /\
    List.length (calls st') = (List.length (calls st) + List.length rk)%nat.
Proof.
  induction authors as [|author authors IH];
    intros p size excl [|[a bs] rk] st st' Hsize Hexcl;
    cbn [partner_rankings List.length]; try contradiction.
  - intros ->. split; [reflexivity | lia].
  - intros (_ & top & buckets & st1 & Htop & _ & _ & Hrest).
    assert (Hsize' : Dict.lookup (Dict.set p "author" author) "size" = Some size)
      by (rewrite lookup_set_other; [assumption | discriminate]).
    assert (Hexcl' : Dict.lookup (Dict.set p "author" author) "exclude_authors"
                     = Some excl)
      by (rewrite lookup_set_other; [assumption | discriminate]).
    pose proof (events_top_one_call index repo (VStr "on_author") _ _ _ st
                  Hsize' Hexcl') as Hone.
    rewrite Htop in Hone; cbn [snd] in Hone.
    destruct (IH _ _ _ _ _ _ Hsize' Hexcl' Hrest) as [Hlen Hcalls].
    split; [now f_equal | lia].
Qed.

Lemma peers_run_fetched {St : Type} (es : Client St) (index repo : pyval)
  (params : dict) (st st' : St) (edges : list (peers_id * Z)) :
  peers_exchange_strength es index repo params st = (Ok edges, st') ->
  exists rankings, fetched es index repo params rankings st st'.
Proof.
  unfold peers_exchange_strength. fold (peers_params params).
  unfold bind at 1.
  destruct (_events_top es index repo (VStr "author") (peers_params params) st)
    as [[top|] st1] eqn:Etop; [| discriminate].
  unfold bind at 1, lift at 1.
  destruct (getitem top "buckets") as [buckets|] eqn:Eb; [| discriminate].
  unfold bind at 1, lift at 1.
  destruct (py_iter buckets) as [bs|] eqn:Ei; [| discriminate].
  unfold bind at 1, lift at 1.
  destruct (map_res _ bs) as [authors|] eqn:Ea; [| discriminate].
  unfold bind at 1.
  destruct (for_each _ authors _ st1) as [[[p' acc']|] st2] eqn:Eloop;
    [| discriminate].
  unfold ret. intros [= _ <-].
  destruct (peers_outer_spec es index repo _ _ _ _ _ _ _ Eloop)
    as (rk & Hrk & _).
  exists rk. now exists top, buckets, bs, authors, st1.
Qed.

(** X19. A run of [peers_exchange_strength] that returns has made one
    search for the top authors and one more for each of them: as many
    requests as one plus the number of partner rankings. *)
Theorem peers_exchange_strength_round_trips
  (index repo : pyval) (params : dict) (st st' : mock)
  (edges : list (peers_id * Z)) :
  peers_exchange_strength scripted index repo params st = (Ok edges, st') ->
  exists rankings,
    fetched scripted index repo params rankings st st' /\
    List.length (calls st')
    = (List.length (calls st) + 1 + List.length rankings)%nat.
Proof.
  intros H. destruct (peers_run_fetched _ _ _ _ _ _ _ H) as [rk Hf].
  exists rk. split; [exact Hf |].
  destruct Hf as (top & buckets & bs & authors & st1 & Htop & _ & _ & _ & Hrk).
  pose proof (events_top_one_call index repo (VStr "author")
                (peers_params params) _ _ st eq_refl eq_refl) as Hone.
  rewrite Htop in Hone; cbn [snd] in Hone.
  destruct (partner_rankings_calls index repo authors (peers_params params)
              _ _ rk st1 st' eq_refl eq_refl Hrk) as [_ Hcalls].
  lia.
Qed.

Lemma peers_exchange_strength_round_trips_witness :
  exists rankings,
    fetched scripted (VStr "monocle") (VStr "openstack/nova") [] rankings
      review_exchange
      (snd (peers_exchange_strength scripted (VStr "monocle")
              (VStr "openstack/nova") [] review_exchange)) /\
    List.length
      (calls (snd (peers_exchange_strength scripted (VStr "monocle")
                     (VStr "openstack/nova") [] review_exchange)))
    = (List.length (calls review_exchange) + 1 + List.length rankings)%nat.
Proof.
  apply (peers_exchange_strength_round_trips (VStr "monocle")
           (VStr "openstack/nova") [] review_exchange _
           [(("alice", "bob"), 7); (("alice", "carol"), 1)]).
  vm_compute. reflexivity.
Defined.

(** X20. When the ranking of the top authors has no bucket,
    [peers_exchange_strength] returns the empty list of edges. *)
Theorem peers_exchange_strength_no_author
  {St : Type} (es : Client St) (index repo data : pyval) (params : dict)
  (st : St) :
  (forall kw, fst (es_search es kw st) = Ok data) ->
  path data ["aggregations"; "agg1"; "buckets"] = Ok (VList []) ->
  fst (peers_exchange_strength es index repo params st) = Ok [].
Proof.
  intros Hsearch Hpath.
  pose proof (_events_top_zero_buckets es index repo (VStr "author")
                (peers_params params) _ _ data st eq_refl eq_refl
                Hsearch Hpath) as Htop.
  unfold peers_exchange_strength. fold (peers_params params).
  unfold bind at 1.
  destruct (_events_top es index repo (VStr "author") (peers_params params) st)
    as [r st1]. cbn [fst] in Htop. subst r. reflexivity.
Qed.

Lemma peers_exchange_strength_no_author_witness :
  fst (peers_exchange_strength scripted (VStr "monocle")
         (VStr "openstack/nova") [] (script [Ok empty_ranking_answer] 0))
  = Ok [].
Proof.
  apply (peers_exchange_strength_no_author scripted (VStr "monocle")
           (VStr "openstack/nova") empty_ranking_answer []
           (script [Ok empty_ranking_answer] 0)).
  - intro kw; reflexivity.
  - reflexivity.
Defined.

(** ** Totals over the changes *)

Lemma count_author_spec (d : list (string * Z)) (k : string) :
  fold_right Z.add 0 (map snd (count_author d k))
  = fold_right Z.add 0 (map snd d) + 1 /\
  (forall a, In a (map fst (count_author d k)) -> In a (map fst d) \/ a = k) /\
  (NoDup (map fst d) -> NoDup (map fst (count_author d k))) /\
  (Forall (fun kv => 1 <= snd kv) d ->
   Forall (fun kv => 1 <= snd kv) (count_author d k)).
Proof.
  induction d as [|[k' v] d (IHsum & IHin & IHnd & IHpos)]; cbn.
  - repeat split; try lia.
    + intros a [<- | []]; now right.
    + intros _. constructor; [intros [] | constructor].
    + intros _. constructor; [cbn; lia | constructor].
  - destruct (String.eqb_spec k' k) as [-> | Hne]; cbn.
    + repeat split; try lia.
      * intros a [<- | H]; [left; now left | left; now right].
      * tauto.
      * intros H. inversion H; subst. constructor; [cbn in *; lia | assumption].
    + repeat split; try lia.
      * intros a [<- | H]; [left; now left |].
        destruct (IHin a H) as [H' | ->]; [left; now right | now right].
      * intros H. inversion H as [|? ? Hnot Hnd]; subst.
        constructor; [| now apply IHnd].
        intros Hin. destruct (IHin _ Hin) as [H' | ->]; [now apply Hnot | now apply Hne].
      * intros H. inversion H; subst. constructor; [assumption | now apply IHpos].
Qed.

Lemma seconds_range (d : Z) : 0 <= Datetime.seconds d <= 86399.
Proof.
  unfold Datetime.seconds.
  pose proof (Z.mod_pos_bound (d / 1000000) 86400 ltac:(lia)). lia.
Qed.

Lemma tally_loop (gs : list group) :
  forall (total total' : Z) (authors authors' : list (string * Z)),
    for_each_res tally gs (total, authors) = Ok (total', authors') ->
    fold_right Z.add 0 (map snd authors')
    = fold_right Z.add 0 (map snd authors) + Z.of_nat (List.length gs) /\
    (NoDup (map fst authors) -> NoDup (map fst authors')) /\
    (Forall (fun kv => 1 <= snd kv) authors ->
     Forall (fun kv => 1 <= snd kv) authors') /\
    total <= total' <= total + 86399 * Z.of_nat (List.length gs).
Proof.
  induction gs as [|g gs IH]; intros total total' authors authors';
    cbn [for_each_res List.length].
  - intros [= <- <-]. repeat split; try tauto; lia.
  - unfold tally at 1; cbn [fst snd].
    destruct (delta g) as [d|]; [| discriminate].
    destruct (as_str (first_event_author g)) as [a|]; [| discriminate].
    intros H. destruct (IH _ _ _ _ H) as (Hsum & Hnd & Hpos & Hbound).
    destruct (count_author_spec authors a) as (Hs1 & _ & Hnd1 & Hpos1).
    pose proof (seconds_range d).
    repeat split; try tauto; lia.
Qed.

(** X21. The totals [_first_event_on_changes] takes over the groups: each
    change credits exactly one author, so the counts of the ranking add up
    to the number of changes, every listed author has at least one and is
    listed once; and each change adds between 0 and 86399 seconds to the
    sum of the delays, whatever its real delay. *)
Theorem tally_totals (gs : list group) (total : Z) (authors : list (string * Z)) :
  for_each_res tally gs (0, []) = Ok (total, authors) ->
  fold_right Z.add 0 (map snd authors) = Z.of_nat (List.length gs) /\
  NoDup (map fst authors) /\
  Forall (fun kv => 1 <= snd kv) authors /\
  0 <= total <= 86399 * Z.of_nat (List.length gs).
Proof.
  intros H. destruct (tally_loop _ _ _ _ _ H) as (Hsum & Hnd & Hpos & Hbound).
  cbn in Hsum. repeat split; try lia.
  - apply Hnd. constructor.
  - apply Hpos. constructor.
Qed.

Lemma tally_totals_witness :
  fold_right Z.add 0 (map snd [("alice", 2); ("bob", 1)]) = Z.of_nat 3 /\
  NoDup (map fst [("alice", 2); ("bob", 1)]) /\
  Forall (fun kv : string * Z => 1 <= snd kv) [("alice", 2); ("bob", 1)] /\
  0 <= 3600 + 0 + 86399 <= 86399 * Z.of_nat 3.
Proof.
  apply (tally_totals
           [ {| change_created_at := Some 0; first_event_created_at := 3600000000;
                first_event_author := VStr "alice"; delta := Some 3600000000 |};
             {| change_created_at := Some 0; first_event_created_at := 86400000000;
                first_event_author := VStr "bob"; delta := Some 86400000000 |};
             {| change_created_at := Some 0; first_event_created_at := 172799000000;
                first_event_author := VStr "alice"; delta := Some 172799000000 |} ]
           (3600 + 0 + 86399) [("alice", 2); ("bob", 1)]).
  vm_compute. reflexivity.
Defined.

Lemma generate_filter_optional_predicates_witness :
  predicates_on "term" "author"
    (generate_filter (VStr "openstack/nova")
       [("author", VStr "alice"); ("approval", VStr "")])
  = [VStr "alice"] /\
  predicates_on "term" "approval"
    (generate_filter (VStr "openstack/nova")
       [("author", VStr "alice"); ("approval", VStr "")])
  = [].
Proof.
  split.
  - apply (proj1 (generate_filter_optional_predicates (VStr "openstack/nova")
                    [("author", VStr "alice"); ("approval", VStr "")])
             "author").
    left; reflexivity.
  - apply (proj1 (generate_filter_optional_predicates (VStr "openstack/nova")
                    [("author", VStr "alice"); ("approval", VStr "")])
             "approval").
    right; right; reflexivity.
Defined.

Lemma one_group_per_change_witness :
  snd ("openstack/nova-1", [VInt 2; VInt 3]) <> [].
Proof.
  apply (proj1 (proj2 (one_group_per_change
                         [("openstack/nova-2", VInt 1);
                          ("openstack/nova-1", VInt 2);
                          ("openstack/nova-1", VInt 3)]))
           ("openstack/nova-1", [VInt 2; VInt 3])).
  left; reflexivity.
Defined.
